(** * K4l3id0 mining bot: agent lifecycle and session consistency

    A shallow embedding of [src/services/MiningCoordinator.js] (which holds
    both the [MiningCoordinator] and the [KaleidoMiningBot] classes),
    [src/utils/utils.js] and [src/config/constants.js].

    Modelling conventions.
    - JavaScript numbers are exact rationals ([Q]); instants returned by
      [Date.now()] are integers ([Z], milliseconds) injected into [Q] where
      the code mixes them with other numbers.  Rounding of IEEE doubles is
      outside the model.
    - JSON documents are typed after the members the code reads; a member
      the code leaves unvalidated and that decides control flow when it is
      [null] ([earnings], [startTime]) is an [option].
    - Strings are byte strings; [toLowerCase] and [trim] act on the ASCII
      range, which is exact for hexadecimal addresses and ASCII files.
    - The outside world (clock, files, remote service, console) is an
      explicit [World] threaded through every effectful function; what the
      program does to the outside is recorded in [trace].
    - Asynchronous code is sequentialised: every [await] runs to completion
      before the caller goes on, and agents run one after the other.  A
      promise is its settlement ([Resolved] or [Rejected]); calling an
      [async] function always completes normally with a promise.  Agents
      share no state but the world, so the order between agents does not
      affect what one agent does to its own state and files.  The order of
      console lines and requests between two agents, and the instant at
      which one agent's events fall relative to another's, are those of
      the sequential run and not the source's interleaving.
    - The clock moves only while the program waits (a request in flight, a
      timer); synchronous code takes no time, so two reads of the clock
      with no [await] between them give the same instant.
    - Time limits are decided on durations, which do not depend on the
      order of the run: the [SIGINT] handler's 30 s timer is compared with
      how long each agent's [stop()] takes from its own start, since the
      source starts them all at the signal.  What an agent still in flight
      has done by the time the process exits early is not modelled: the
      model shows it complete. *)

From Stdlib Require Import QArith Ascii String.
From stdpp Require Import gmap strings list.

Local Open Scope string_scope.
Local Open Scope list_scope.
Local Open Scope Z_scope.

(** ** JavaScript library functions used by the program *)

Module JS.

(** [String.prototype.toLowerCase] on the ASCII range. *)
Definition lower_ascii (c : ascii) : ascii :=
  let n := N_of_ascii c in
  if ((65 <=? n) && (n <=? 90))%N then ascii_of_N (n + 32) else c.

Fixpoint toLowerCase (s : string) : string :=
  match s with
  | EmptyString => EmptyString
  | String c s' => String (lower_ascii c) (toLowerCase s')
  end.

(** [String.prototype.trim]: drop leading and trailing white space. *)
Fixpoint trimStart (s : string) : string :=
  match s with
  | String c s' => if Ascii.is_space c then trimStart s' else s
  | EmptyString => EmptyString
  end.

Definition trim (s : string) : string :=
  String.rev (trimStart (String.rev (trimStart s))).

(** [s.split('\n')]: the pieces between line feeds; never the empty list. *)
Fixpoint split_lines_go (cur : string) (s : string) : list string :=
  match s with
  | EmptyString => [String.rev cur]
  | String c s' =>
      if Ascii.eqb c "010"%char
      then String.rev cur :: split_lines_go EmptyString s'
      else split_lines_go (String c cur) s'
  end.

Definition split_lines (s : string) : list string := split_lines_go EmptyString s.

(** [line.startsWith(p)]. *)
Definition startsWith (p line : string) : bool := String.prefix p line.

(** A string is truthy when it is not empty. *)
Definition truthy_string (s : string) : bool :=
  match s with EmptyString => false | _ => true end.

(** [path.join(a, b)] for segments without separators or dot segments,
    which is all the program ever joins. *)
Definition path_join (a b : string) : string := a +:+ "/" +:+ b.

(** [x || 0] on an optional number: absent, null and 0 all give 0. *)
Definition or_zero (x : option Q) : Q := default 0%Q x.

(** A nullable number used as an operand of [-]: [null] converts to 0. *)
Definition to_number (x : option Q) : Q := default 0%Q x.

(** Completion of a synchronous call or of an awaited expression. *)
Inductive Completion (A : Type) : Type :=
| Normal (a : A)
| Throw (msg : string).

(** Settlement of a promise. *)
Inductive Promise (A : Type) : Type :=
| Resolved (a : A)
| Rejected (msg : string).

End JS.

Arguments JS.Normal {A} a.
Arguments JS.Throw {A} msg.
Arguments JS.Resolved {A} a.
Arguments JS.Rejected {A} msg.

(** ** Constants ([src/config/constants.js]) *)

Module MINING_CONFIG.
Definition UPDATE_INTERVAL : Z := 30000.
Definition DEFAULT_HASHRATE : Q := 151 # 2.
Definition EARNINGS_RATE : Q := 1 # 10000.
(** Declared in the source but read nowhere: [retryRequest] has its own
    default budget (3) and its own base delay (2000 ms). *)
Definition RETRY_ATTEMPTS : nat := 5.
Definition RETRY_DELAY : Z := 3000.
End MINING_CONFIG.

Module API_CONFIG.
Definition TIMEOUT : Z := 10000.
End API_CONFIG.

Module FILE_PATHS.
Definition PRIVATE_KEYS : string := "pk.txt".
Definition PROXIES : string := "proxies.txt".
End FILE_PATHS.

(** Every [DEBUG] flag is the constant [false]: the console output guarded
    by them never happens and is left out of the model. *)
Module DEBUG.
Definition VERBOSE : bool := false.
Definition LOG_ERRORS : bool := false.
End DEBUG.

(** ** Data model *)

(** [this.currentEarnings]: an object with the single member [total]. *)
Record Earnings := { total : Q }.

(** The session document [{startTime, earnings, referralBonus}] kept in
    [<root>/session/*.json].  [startTime] and [earnings] are nullable:
    the agent itself writes [startTime: null] when it is stopped before it
    ever became active, and nothing validates [earnings] on load. *)
Record SessionDoc := {
  doc_startTime : option Q;
  doc_earnings : option Earnings;
  doc_referralBonus : Q
}.

(** What a file of the session directory holds for [loadSession]: a session
    document, or text for which [JSON.parse] (or the member reads after it)
    throws. *)
Inductive Content :=
| Doc (d : SessionDoc)
| Malformed.

(** [response.data.userData] of the registration check. *)
Record UserData := {
  ud_balance : option Q;
  ud_referralBonus : option Q
}.

(** The members of [response.data] the agent reads.  A boolean member that
    is absent or falsy is [false]. *)
Record Body := {
  isRegistered : bool;
  userData : option UserData;
  success : bool;
  balance : Q
}.

(** The two requests the agent issues through [this.api]. *)
Inductive Request :=
| CheckRegistration (wallet : string)
| UpdateBalance (wallet : string) (session : Q).

(** What the remote service does with one request attempt. *)
Inductive Reply :=
| Fail (latency : Z) (msg : string)
| Respond (latency : Z) (data : Body).

(** Console lines that are not guarded by a [DEBUG] flag. *)
Inductive Console :=
| NoProxiesFile
| ErrorLoadingKeys
| AlreadyRunning
| NoValidKeys
| LoadedKeys (n : nat)
| UsingUniqueProxies (n : nat)
| InvalidKey (index : nat)
| ShutdownInProgress
| ForcedExit
| ShuttingDown
| ShutdownTimeout
| ErrorStoppingBot (msg : string)
| FinalSummary (wallets : nat) (totalPaid : Q)
| ErrorDuringShutdown (msg : string)
| SessionLoaded (botIndex : nat)
| MiningStarted (botIndex : nat) (resumed : bool)
| UsingProxy (botIndex : nat) (proxy : string)
| Status (botIndex : nat) (final : bool) (total : Q)
| Stopping (botIndex : nat)
| Stopped (botIndex : nat).

Inductive event :=
| EvRequest (r : Request)
| EvSleep (ms : Z)
| EvWrite (path : string) (d : SessionDoc) (ok : bool)
| EvConsole (line : Console)
| EvOnceSIGINT
| EvExit (code : Z).

(** The world the program runs in.  [service k] is the remote service's
    answer to the [k]-th request attempt (counted by [sent]); [disk k] tells
    whether the [k]-th [fs.writeFile] (counted by [written]) succeeds. *)
Record World := {
  root : string;
  clock : Z;
  files : gmap string string;
  sessions : gmap string Content;
  service : nat -> Reply;
  sent : nat;
  disk : nat -> bool;
  written : nat;
  trace : list event
}.

Definition emit (e : event) (w : World) : World :=
  {| root := root w; clock := clock w; files := files w; sessions := sessions w;
     service := service w; sent := sent w; disk := disk w; written := written w;
     trace := trace w ++ [e] |}.

Definition console_log (line : Console) (w : World) : World :=
  emit (EvConsole line) w.

Definition process_exit (code : Z) (w : World) : World :=
  emit (EvExit code) w.

(** [await new Promise(resolve => setTimeout(resolve, ms))]. *)
Definition sleep (ms : Z) (w : World) : World :=
  emit (EvSleep ms)
    {| root := root w; clock := clock w + ms; files := files w; sessions := sessions w;
       service := service w; sent := sent w; disk := disk w; written := written w;
       trace := trace w |}.

(** One request through the agent's axios instance: [this.api.get(...)] or
    [this.api.post(...)].  The promise is awaited by the caller. *)
Definition api_call (r : Request) (w : World) : JS.Completion Body * World :=
  let reply := service w (sent w) in
  let after (latency : Z) :=
    emit (EvRequest r)
      {| root := root w; clock := clock w + latency; files := files w;
         sessions := sessions w; service := service w; sent := S (sent w);
         disk := disk w; written := written w; trace := trace w |} in
  match reply with
  | Fail latency msg => (JS.Throw msg, after latency)
  | Respond latency data => (JS.Normal data, after latency)
  end.

(** [await fs.writeFile(path, JSON.stringify(doc, null, 2))]. *)
Definition writeFile (path : string) (d : SessionDoc) (w : World) : JS.Completion unit * World :=
  let ok := disk w (written w) in
  let w' :=
    emit (EvWrite path d ok)
      {| root := root w; clock := clock w; files := files w;
         sessions := if ok then <[path := Doc d]> (sessions w) else sessions w;
         service := service w; sent := sent w; disk := disk w;
         written := S (written w); trace := trace w |} in
  (if ok then JS.Normal tt else JS.Throw "EIO", w').

(** ** The mining agent ([class KaleidoMiningBot]) *)

Record MiningState := {
  isActive : bool;
  worker : string;
  pool : string;
  startTime : option Q;
  lastUpdate : option Z
}.

Record Stats := {
  hashrate : Q;
  shares_accepted : nat;
  shares_rejected : nat;
  efficiency : Q;
  powerUsage : Q
}.

Record Bot := {
  wallet : string;
  botIndex : nat;
  proxy : option string;
  currentEarnings : option Earnings;
  miningState : MiningState;
  referralBonus : Q;
  stats : Stats;
  sessionDir : string;
  sessionFile : string
}.

(** Assignments to members of [this] and of [this.miningState]. *)
Definition set_isActive (v : bool) (b : Bot) : Bot :=
  let m := miningState b in
  {| wallet := wallet b; botIndex := botIndex b; proxy := proxy b;
     currentEarnings := currentEarnings b;
     miningState := {| isActive := v; worker := worker m; pool := pool m;
                       startTime := startTime m; lastUpdate := lastUpdate m |};
     referralBonus := referralBonus b; stats := stats b;
     sessionDir := sessionDir b; sessionFile := sessionFile b |}.

Definition set_startTime (v : option Q) (b : Bot) : Bot :=
  let m := miningState b in
  {| wallet := wallet b; botIndex := botIndex b; proxy := proxy b;
     currentEarnings := currentEarnings b;
     miningState := {| isActive := isActive m; worker := worker m; pool := pool m;
                       startTime := v; lastUpdate := lastUpdate m |};
     referralBonus := referralBonus b; stats := stats b;
     sessionDir := sessionDir b; sessionFile := sessionFile b |}.

Definition set_lastUpdate (v : option Z) (b : Bot) : Bot :=
  let m := miningState b in
  {| wallet := wallet b; botIndex := botIndex b; proxy := proxy b;
     currentEarnings := currentEarnings b;
     miningState := {| isActive := isActive m; worker := worker m; pool := pool m;
                       startTime := startTime m; lastUpdate := v |};
     referralBonus := referralBonus b; stats := stats b;
     sessionDir := sessionDir b; sessionFile := sessionFile b |}.

Definition set_currentEarnings (v : option Earnings) (b : Bot) : Bot :=
  {| wallet := wallet b; botIndex := botIndex b; proxy := proxy b;
     currentEarnings := v; miningState := miningState b;
     referralBonus := referralBonus b; stats := stats b;
     sessionDir := sessionDir b; sessionFile := sessionFile b |}.

Definition set_referralBonus (v : Q) (b : Bot) : Bot :=
  {| wallet := wallet b; botIndex := botIndex b; proxy := proxy b;
     currentEarnings := currentEarnings b; miningState := miningState b;
     referralBonus := v; stats := stats b;
     sessionDir := sessionDir b; sessionFile := sessionFile b |}.

Module KaleidoMiningBot.

(** [new KaleidoMiningBot(wallet, botIndex, proxy)].  The identity kept in
    [this.wallet] is the lower-cased address; the session file name is built
    from the constructor's argument as it was passed. *)
Definition constructor (wallet0 : string) (botIndex0 : nat) (proxy0 : option string)
    (w : World) : Bot :=
  let sessionDir0 := JS.path_join (root w) "session" in
  {| wallet := JS.toLowerCase wallet0;
     botIndex := botIndex0;
     proxy := proxy0;
     currentEarnings := Some {| total := 0 |};
     miningState := {| isActive := false; worker := "quantum-rig-1";
                       pool := "quantum-1"; startTime := None; lastUpdate := None |};
     referralBonus := 0;
     stats := {| hashrate := MINING_CONFIG.DEFAULT_HASHRATE;
                 shares_accepted := 0; shares_rejected := 0;
                 efficiency := 7 # 5; powerUsage := 120 |};
     sessionDir := sessionDir0;
     sessionFile := JS.path_join sessionDir0 (wallet0 +:+ ".json") |}.

(** [loadSession]: restore the three members from the session file; any
    failure to read or parse it answers [false] and changes nothing. *)
Definition loadSession (b : Bot) (w : World) : bool * Bot * World :=
  match sessions w !! sessionFile b with
  | Some (Doc session) =>
      let b1 := set_startTime (doc_startTime session) b in
      let b2 := set_currentEarnings (doc_earnings session) b1 in
      let b3 := set_referralBonus (doc_referralBonus session) b2 in
      (true, b3, console_log (SessionLoaded (botIndex b)) w)
  | Some Malformed | None => (false, b, w)
  end.

(** [saveSession]: full rewrite of the session file; a failed write is
    caught and, [DEBUG.LOG_ERRORS] being off, silent. *)
Definition saveSession (b : Bot) (w : World) : World :=
  let sessionData :=
    {| doc_startTime := startTime (miningState b);
       doc_earnings := currentEarnings b;
       doc_referralBonus := referralBonus b |} in
  snd (writeFile (sessionFile b) sessionData w).

(** [retryRequest(requestFn, operationName, retries = 3)].  [remaining] is
    [retries - i], the number of iterations the [for] loop has left. *)
Fixpoint retryRequest_loop {A : Type} (requestFn : World -> JS.Completion A * World)
    (retries i remaining : nat) (w : World) : JS.Completion (option A) * World :=
  match remaining with
  | O => (JS.Normal None, w)
  | S remaining' =>
      match requestFn w with
      | (JS.Normal a, w1) => (JS.Normal (Some a), w1)
      | (JS.Throw err, w1) =>
          if Nat.eqb i (retries - 1)
          then (JS.Throw err, w1)
          else retryRequest_loop requestFn retries (S i) remaining'
                 (sleep (2000 * (Z.of_nat i + 1)) w1)
      end
  end.

Definition retryRequest {A : Type} (requestFn : World -> JS.Completion A * World)
    (operationName : string) (retries : nat) (w : World)
    : JS.Completion (option A) * World :=
  retryRequest_loop requestFn retries 0 retries w.

(** [calculateSessionEarnings]: the earnings since the last update; moves
    [lastUpdate] to now.  [lastUpdate] is an ISO string in the source, which
    [new Date(...).getTime()] maps back to the same millisecond. *)
Definition calculateSessionEarnings (b : Bot) (w : World) : Q * Bot :=
  let now := clock w in
  let since :=
    match lastUpdate (miningState b) with
    | Some t => inject_Z t
    | None => JS.to_number (startTime (miningState b))
    end in
  let timeElapsed := ((inject_Z now - since) / 1000)%Q in
  let earnings :=
    ((hashrate (stats b) * timeElapsed * MINING_CONFIG.EARNINGS_RATE)
     * (1 + referralBonus b))%Q in
  (earnings, set_lastUpdate (Some now) b).

(** [logStatus(final)]; reading [this.currentEarnings.total] throws a
    TypeError when [currentEarnings] is null. *)
Definition logStatus (final : bool) (b : Bot) (w : World) : JS.Completion unit * World :=
  match currentEarnings b with
  | Some e => (JS.Normal tt, console_log (Status (botIndex b) final (total e)) w)
  | None => (JS.Throw "TypeError", w)
  end.

(** [updateBalance(finalUpdate)].  The whole body sits in a [try] whose
    [catch] only logs under [DEBUG.LOG_ERRORS]: the call never throws. *)
Definition updateBalance (finalUpdate : bool) (b : Bot) (w : World) : Bot * World :=
  let '(sessionEarnings, b1) := calculateSessionEarnings b w in
  let payload := UpdateBalance (wallet b1) sessionEarnings in
  match retryRequest (api_call payload) "Balance update" 3 w with
  | (JS.Normal (Some data), w1) =>
      if success data then
        match currentEarnings b1 with
        | Some _ =>
            let b2 := set_currentEarnings (Some {| total := balance data |}) b1 in
            let w2 := saveSession b2 w1 in
            (b2, snd (logStatus finalUpdate b2 w2))
        | None => (b1, w1)
        end
      else (b1, w1)
  | (JS.Normal None, w1) => (b1, w1)
  | (JS.Throw _, w1) => (b1, w1)
  end.

(** [startMiningLoop], run for at most [cycles] iterations: the loop has no
    exit of its own, it ends when [stop] clears [isActive].  [updateBalance]
    never throws, so the loop's [catch] branch is unreachable. *)
Fixpoint startMiningLoop (cycles : nat) (b : Bot) (w : World) : Bot * World :=
  match cycles with
  | O => (b, w)
  | S cycles' =>
      if isActive (miningState b) then
        let '(b1, w1) := updateBalance false b w in
        startMiningLoop cycles' b1 (sleep MINING_CONFIG.UPDATE_INTERVAL w1)
      else (b, w)
  end.

(** [initialize], followed by [cycles] iterations of the report loop. *)
Definition initialize (cycles : nat) (b : Bot) (w : World) : Bot * World :=
  match retryRequest (api_call (CheckRegistration (wallet b))) "Registration check" 3 w with
  | (JS.Normal (Some data), w1) =>
      if isRegistered data then
        let '(hasSession, b1, w2) := loadSession b w1 in
        let b2 :=
          if hasSession then b1
          else
            let b' := set_referralBonus (JS.or_zero (userData data ≫= ud_referralBonus)) b1 in
            let b'' := set_currentEarnings
                         (Some {| total := JS.or_zero (userData data ≫= ud_balance) |}) b' in
            set_startTime (Some (inject_Z (clock w2))) b'' in
        let b3 := set_lastUpdate (Some (clock w2)) (set_isActive true b2) in
        let w3 := console_log (MiningStarted (botIndex b) hasSession) w2 in
        let w4 := match proxy b with
                  | Some p => console_log (UsingProxy (botIndex b) p) w3
                  | None => w3
                  end in
        startMiningLoop cycles b3 w4
      else (set_isActive false b, w1)
  | (JS.Normal None, w1) => (set_isActive false b, w1)
  | (JS.Throw _, w1) => (set_isActive false b, w1)
  end.

(** [stop]: an [async] function.  Both the [try] body and the [catch]
    handler end in [return this.currentEarnings.total]; when
    [currentEarnings] is null the first read throws into the handler and
    the second read throws out of it, rejecting the promise. *)
Definition stop (b : Bot) (w : World) : JS.Promise Q * Bot * World :=
  let w0 := console_log (Stopping (botIndex b)) w in
  let b0 := set_isActive false b in
  let '(b1, w1) := updateBalance true b0 w0 in
  let w2 := saveSession b1 w1 in
  let w3 := console_log (Stopped (botIndex b)) w2 in
  match currentEarnings b1 with
  | Some e => (JS.Resolved (total e), b1, w3)
  | None => (JS.Rejected "TypeError", b1, w3)
  end.

End KaleidoMiningBot.

(** ** Utilities ([src/utils/utils.js]) *)

Module Utils.
Section Resolver.

(** [new ethers.Wallet(key).address]: the checksummed (mixed-case) address
    of a key, or [None] where the constructor throws. *)
Variable ethers_address : string -> option string.

Definition getWalletFromPrivateKey (privateKey : string) : option string :=
  let formattedKey :=
    if JS.startsWith "0x" privateKey then privateKey else "0x" +:+ privateKey in
  ethers_address formattedKey.

End Resolver.
End Utils.

(** ** The coordinator ([class MiningCoordinator]) *)

Record Credential := {
  privateKey : string;
  cred_proxy : option string
}.

Record Coordinator := {
  bots : list Bot;
  totalPaid : Q;
  isRunning : bool;
  isShuttingDown : bool
}.

Module MiningCoordinator.

Definition constructor : Coordinator :=
  {| bots := []; totalPaid := 0; isRunning := false; isShuttingDown := false |}.

(** [data.split('\n').map(line => line.trim())
        .filter(line => line && !line.startsWith('#'))]. *)
Definition parse_lines (data : string) : list string :=
  List.filter (fun line => JS.truthy_string line && negb (JS.startsWith "#" line))
    (map JS.trim (JS.split_lines data)).

(** The final [privateKeys.map((pk, index) => ...)]. *)
Definition assign_proxies (privateKeys proxies : list string) : list Credential :=
  imap (fun index pk =>
          {| privateKey := pk;
             cred_proxy :=
               if (0 <? length proxies)%nat
               then proxies !! (index mod length proxies)%nat
               else None |})
       privateKeys.

Definition loadPrivateKeysAndProxies (w : World) : list Credential * World :=
  let pkPath := JS.path_join (root w) FILE_PATHS.PRIVATE_KEYS in
  let proxyPath := JS.path_join (root w) FILE_PATHS.PROXIES in
  match files w !! pkPath with
  | None => ([], console_log ErrorLoadingKeys w)
  | Some pkData =>
      let '(proxyData, w1) :=
        match files w !! proxyPath with
        | Some data => (data, w)
        | None => ("", console_log NoProxiesFile w)
        end in
      let privateKeys := parse_lines pkData in
      let proxies := if JS.truthy_string proxyData then parse_lines proxyData else [] in
      (assign_proxies privateKeys proxies, w1)
  end.

(** The [SIGINT] handler's [this.bots.map(bot => { try { return bot.stop(); }
    catch (err) { ...; return 0; } })].  [bot.stop] is [async]: the call
    itself completes normally with a promise whatever happens inside, so
    the [catch] arm only sees a synchronous throw of the call. *)
Definition call_stop (b : Bot) (w : World) : JS.Completion (JS.Promise Q) * Bot * World :=
  let '(p, b', w') := KaleidoMiningBot.stop b w in (JS.Normal p, b', w').

Definition stop_callback (b : Bot) (w : World) : JS.Promise Q * Bot * World :=
  match call_stop b w with
  | (JS.Normal p, b', w') => (p, b', w')
  | (JS.Throw msg, b', w') => (JS.Resolved 0%Q, b', console_log (ErrorStoppingBot msg) w')
  end.

Fixpoint stop_all (l : list Bot) (w : World) : list (JS.Promise Q) * list Bot * World :=
  match l with
  | [] => ([], [], w)
  | b :: rest =>
      let '(p, b', w1) := stop_callback b w in
      let '(ps, rest', w2) := stop_all rest w1 in
      (p :: ps, b' :: rest', w2)
  end.

(** [Promise.all]: all the values when every promise resolved, otherwise a
    rejection. *)
Fixpoint Promise_all {A : Type} (ps : list (JS.Promise A)) : JS.Promise (list A) :=
  match ps with
  | [] => JS.Resolved []
  | JS.Rejected msg :: _ => JS.Rejected msg
  | JS.Resolved a :: rest =>
      match Promise_all rest with
      | JS.Resolved l => JS.Resolved (a :: l)
      | JS.Rejected msg => JS.Rejected msg
      end
  end.

Definition set_bots (l : list Bot) (c : Coordinator) : Coordinator :=
  {| bots := l; totalPaid := totalPaid c; isRunning := isRunning c;
     isShuttingDown := isShuttingDown c |}.

(** How long each agent's [stop()] takes, from its call to its settlement.
    The replies it gets are those of the run of [stop_all]. *)
Fixpoint stop_durations (l : list Bot) (w : World) : list Z :=
  match l with
  | [] => []
  | b :: rest =>
      let '(_, _, w1) := stop_callback b w in
      (clock w1 - clock w) :: stop_durations rest w1
  end.

(** [setTimeout(..., 30000)] in the [SIGINT] handler. *)
Definition FORCE_EXIT_TIMEOUT : Z := 30000.

Definition in_time (d : Z) : bool := d <? FORCE_EXIT_TIMEOUT.

(** The promises settled before the force-exit timer fires: every
    [stop()] starts at the signal, so these are the ones whose own
    duration is below the timeout (the timer wins a tie). *)
Definition settled_in_time (promises : list (JS.Promise Q)) (durations : list Z)
    : list (JS.Promise Q) :=
  map fst (List.filter (fun pd => in_time (snd pd)) (combine promises durations)).

(** The [SIGINT] handler installed by [setupShutdownHandler].

    While a shutdown is in progress it prints the warning and arms the
    forced exit with [process.once('SIGINT', ...)].  Otherwise it starts
    the 30 s force-exit timer and awaits [Promise.all] of the agents'
    [stop()]: a rejection settled before the timer throws into the
    [catch] (exit 1); when every [stop()] resolves before the timer, the
    timer is cleared, the total is summed and the summary printed
    (exit 0); when some [stop()] is still in flight at 30 s, the timer
    prints its line and exits with 1. *)
Definition shutdown (c : Coordinator) (w : World) : Coordinator * World :=
  if isShuttingDown c then (c, emit EvOnceSIGINT (console_log ShutdownInProgress w))
  else
    let w1 := console_log ShuttingDown w in
    let durations := stop_durations (bots c) w1 in
    let '(promises, bots', w2) := stop_all (bots c) w1 in
    match Promise_all (settled_in_time promises durations) with
    | JS.Rejected msg =>
        ({| bots := bots'; totalPaid := totalPaid c; isRunning := isRunning c;
            isShuttingDown := true |},
         process_exit 1 (console_log (ErrorDuringShutdown msg) w2))
    | JS.Resolved paidValues =>
        if forallb in_time durations then
          let total := fold_left Qplus paidValues 0%Q in
          ({| bots := bots'; totalPaid := total; isRunning := isRunning c;
              isShuttingDown := true |},
           process_exit 0 (console_log (FinalSummary (length bots') total) w2))
        else
          ({| bots := bots'; totalPaid := totalPaid c; isRunning := isRunning c;
              isShuttingDown := true |},
           process_exit 1 (console_log ShutdownTimeout w2))
    end.

(** The forced-exit listener armed by the handler. *)
Definition forced_exit (w : World) : World :=
  process_exit 1 (console_log ForcedExit w).

(** Whether a forced-exit listener is registered on the process. *)
Definition forced_exit_armed (w : World) : bool :=
  existsb (fun e => match e with EvOnceSIGINT => true | _ => false end) (trace w).

(** [process.emit('SIGINT')]: the listeners registered before the signal
    run in the order of their registration, the handler first and then the
    forced exit when it has been armed. *)
Definition SIGINT (c : Coordinator) (w : World) : Coordinator * World :=
  let '(c', w') := shutdown c w in
  if forced_exit_armed w then (c', forced_exit w') else (c', w').

Section Start.

Variable ethers_address : string -> option string.

(** The [for] loop of [start]: one agent per resolvable key, pushed to
    [this.bots] and initialised.  [bot.initialize()] is not awaited in the
    source; here each agent's initialisation and its first [cycles] reports
    run before the next agent is built. *)
Fixpoint start_bots (cycles : nat) (items : list Credential) (i : nat)
    (acc : list Bot) (w : World) : list Bot * World :=
  match items with
  | [] => (acc, w)
  | item :: rest =>
      match Utils.getWalletFromPrivateKey ethers_address (privateKey item) with
      | Some address =>
          if JS.truthy_string address then
            let bot := KaleidoMiningBot.constructor address (i + 1) (cred_proxy item) w in
            let '(bot', w') := KaleidoMiningBot.initialize cycles bot w in
            start_bots cycles rest (S i) (acc ++ [bot']) w'
          else start_bots cycles rest (S i) acc (console_log (InvalidKey (i + 1)) w)
      | None => start_bots cycles rest (S i) acc (console_log (InvalidKey (i + 1)) w)
      end
  end.

(** [start].  The banner, the (failing, silently caught) [fs.mkdir] call
    and the installation of the signal handler leave no mark on the state. *)
Definition start (cycles : nat) (c : Coordinator) (w : World) : Coordinator * World :=
  if isRunning c then (c, console_log AlreadyRunning w)
  else
    let c1 := {| bots := bots c; totalPaid := totalPaid c; isRunning := true;
                 isShuttingDown := isShuttingDown c |} in
    let '(pkAndProxies, w1) := loadPrivateKeysAndProxies w in
    if (length pkAndProxies =? 0)%nat
    then (c1, process_exit 1 (console_log NoValidKeys w1))
    else
      let w2 := console_log (LoadedKeys (length pkAndProxies)) w1 in
      let uniqueProxies : gset string := list_to_set (omap cred_proxy pkAndProxies) in
      let w3 := if (0 <? size uniqueProxies)%nat
                then console_log (UsingUniqueProxies (size uniqueProxies)) w2
                else w2 in
      let '(bots', w4) := start_bots cycles pkAndProxies 0 [] w3 in
      (set_bots bots' c1, w4).

End Start.

End MiningCoordinator.

(** ** Vocabulary of the properties *)

Definition is_fail (r : Reply) : Prop :=
  match r with Fail _ _ => True | Respond _ _ => False end.

(** The events of [n] attempts of request [req] under the retry policy:
    attempt [i] (counted from 1) is followed by a wait of [2000 * i] ms,
    except the last one. *)
Definition attempts (req : Request) (n : nat) : list event :=
  concat (map (fun i => [EvRequest req; EvSleep (2000 * Z.of_nat i)]) (seq 1 (n - 1)))
  ++ [EvRequest req].

Definition requests_of (evs : list event) : list Request :=
  omap (fun e => match e with EvRequest r => Some r | _ => None end) evs.

Definition sleeps_of (evs : list event) : list Z :=
  omap (fun e => match e with EvSleep ms => Some ms | _ => None end) evs.

Definition console_of (evs : list event) : list Console :=
  omap (fun e => match e with EvConsole line => Some line | _ => None end) evs.

Definition exits_of (evs : list event) : list Z :=
  omap (fun e => match e with EvExit code => Some code | _ => None end) evs.

(** [this.currentEarnings.total], when there is an earnings object. *)
Definition earnings_total (b : Bot) : option Q := total <$> currentEarnings b.

(** The request [updateBalance] submits from state [b] in world [w]. *)
Definition update_request (b : Bot) (w : World) : Request :=
  UpdateBalance (wallet b) (fst (KaleidoMiningBot.calculateSessionEarnings b w)).

(** The record [saveSession] writes for agent [b]. *)
Definition session_record (b : Bot) : SessionDoc :=
  {| doc_startTime := startTime (miningState b);
     doc_earnings := currentEarnings b;
     doc_referralBonus := referralBonus b |}.

(** A remote service that answers the attempts with [l], in order, and
    lets every later attempt time out. *)
Definition scripted (l : list Reply) (k : nat) : Reply :=
  nth k l (Fail API_CONFIG.TIMEOUT "timeout of 10000ms exceeded").

(** ** Concrete scenarios

    Two keys with their well-known addresses, a clock, and replies of the
    remote service; used to run the model on definite inputs. *)

Module Scenario.

Definition key1 : string :=
  "0000000000000000000000000000000000000000000000000000000000000001".
Definition key2 : string :=
  "0000000000000000000000000000000000000000000000000000000000000002".
Definition address1 : string := "0x7E5F4552091A69125d5DfCb7b8C2659029395Bdf".
Definition address2 : string := "0x2B5AD5c4795c026514f8317c7a215E218DcCD6cF".

Definition ethers_address (key : string) : option string :=
  if String.eqb key ("0x" +:+ key1) then Some address1
  else if String.eqb key ("0x" +:+ key2) then Some address2
  else None.

Definition newline : string := String "010"%char EmptyString.

Definition world (replies : list Reply) (texts : gmap string string)
    (store : gmap string Content) : World :=
  {| root := "/app"; clock := 1700000000000; files := texts; sessions := store;
     service := scripted replies; sent := 0; disk := fun _ => true; written := 0;
     trace := [] |}.

Definition registered (bal bonus : option Q) : Body :=
  {| isRegistered := true;
     userData := Some {| ud_balance := bal; ud_referralBonus := bonus |};
     success := false; balance := 0 |}.

Definition not_registered : Body :=
  {| isRegistered := false; userData := None; success := false; balance := 0 |}.

Definition accepted (b : Q) : Body :=
  {| isRegistered := false; userData := None; success := true; balance := b |}.

Definition refused : Body :=
  {| isRegistered := false; userData := None; success := false; balance := 0 |}.

(** A fresh agent for [address1] in a world without session files. *)
Definition fresh_bot : Bot :=
  KaleidoMiningBot.constructor address1 1 None (world [] ∅ ∅).

(** An earlier session of [address1]. *)
Definition old_session : SessionDoc :=
  {| doc_startTime := Some (inject_Z 1690000000000);
     doc_earnings := Some {| total := 5 |};
     doc_referralBonus := 1 # 10 |}.

(** A session file of [address1] whose [earnings] member is [null]. *)
Definition null_earnings_session : SessionDoc :=
  {| doc_startTime := Some (inject_Z 1690000000000);
     doc_earnings := None;
     doc_referralBonus := 0 |}.

Definition session_path1 : string := "/app/session/" +:+ address1 +:+ ".json".

Definition old_store : gmap string Content := {[ session_path1 := Doc old_session ]}.

(** The agent of [address1] resumed from [old_store], and the world it is
    in after the registration check; the service then accepts one update
    and confirms the total 5.2. *)
Definition resume_world : World :=
  world [Respond 120 (registered (Some (100 # 1)) (Some (1 # 2)));
         Respond 90 (accepted (26 # 5))] ∅ old_store.
Definition resumed_bot : Bot := fst (KaleidoMiningBot.initialize 0 fresh_bot resume_world).
Definition resumed_world : World :=
  sleep 200 (snd (KaleidoMiningBot.initialize 0 fresh_bot resume_world)).

(** A session in which the service confirms 5 and then 3. *)
Definition shrinking_world : World :=
  world [Respond 120 (registered (Some 0%Q) None);
         Respond 90 (accepted 5); Respond 90 (accepted 3)] ∅ ∅.

(** A session whose first update is refused by the service. *)
Definition refusing_world : World :=
  world [Respond 120 (registered (Some 0%Q) None); Respond 90 refused] ∅ ∅.
Definition refused_bot : Bot := fst (KaleidoMiningBot.initialize 0 fresh_bot refusing_world).
Definition refused_world : World :=
  sleep 200 (snd (KaleidoMiningBot.initialize 0 fresh_bot refusing_world)).

(** A session whose first update fails on all three attempts. *)
Definition failing_world : World :=
  world [Respond 120 (registered (Some 0%Q) None);
         Fail 10000 "timeout of 10000ms exceeded"; Fail 40 "ECONNRESET";
         Fail 60 "Request failed with status code 502"] ∅ ∅.
Definition failing_bot : Bot := fst (KaleidoMiningBot.initialize 0 fresh_bot failing_world).
Definition failing_now : World :=
  sleep 200 (snd (KaleidoMiningBot.initialize 0 fresh_bot failing_world)).

(** A first run: no session file, the service reports balance 100 and
    bonus 1/2. *)
Definition first_run_world : World :=
  world [Respond 120 (registered (Some (100 # 1)) (Some (1 # 2)))] ∅ ∅.

Definition one_key : gmap string string := {[ "/app/pk.txt" := key1 +:+ newline ]}.
Definition two_keys : gmap string string :=
  {[ "/app/pk.txt" := key1 +:+ newline +:+ key2 +:+ newline ]}.

(** One key whose wallet the service does not know; at shutdown the
    service accepts the agent's final report and answers 7. *)
Definition unregistered_world : World :=
  world [Respond 120 not_registered; Respond 90 (accepted 7)] one_key ∅.
Definition unregistered_started : Coordinator * World :=
  MiningCoordinator.start ethers_address 0 MiningCoordinator.constructor unregistered_world.

(** Two keys, both registered; the session file of the first has
    [earnings: null].  At shutdown the service accepts both final reports. *)
Definition null_earnings_world : World :=
  world [Respond 120 (registered (Some 1%Q) None);
         Respond 120 (registered (Some 5%Q) None);
         Respond 90 (accepted 9); Respond 90 (accepted 6)]
        two_keys {[ session_path1 := Doc null_earnings_session ]}.
Definition null_earnings_started : Coordinator * World :=
  MiningCoordinator.start ethers_address 0 MiningCoordinator.constructor null_earnings_world.

End Scenario.

(** ** Further code of the agent, and vocabulary for what it leaves alone *)


(** The members of an agent that are set by the constructor only. *)
Definition same_identity (b b' : Bot) : Prop :=
  wallet b' = wallet b /\ botIndex b' = botIndex b /\ proxy b' = proxy b /\
  sessionDir b' = sessionDir b /\ sessionFile b' = sessionFile b /\ stats b' = stats b.

(** An event an agent with session file [path] may cause: any request,
    wait or console line, a write of [path] only, and no process exit or
    signal listener. *)
Definition own_event (path : string) (e : event) : Prop :=
  match e with
  | EvWrite p _ _ => p = path
  | EvExit _ => False
  | EvOnceSIGINT => False
  | _ => True
  end.

(** [w'] comes from [w] by actions of an agent whose session file is
    [path]: the installation, the text files, the remote service and the
    disk are the same, every other session file is untouched, and the new
    events are the agent's own. *)
Definition agent_step (path : string) (w w' : World) : Prop :=
  root w' = root w /\ files w' = files w /\ service w' = service w /\ disk w' = disk w /\
  (forall p, p <> path -> sessions w' !! p = sessions w !! p) /\
  (sent w <= sent w')%nat /\ (written w <= written w')%nat /\
  exists evs, trace w' = trace w ++ evs /\ Forall (own_event path) evs.

(** The agents [start] is expected to build from the loaded entries: one
    per entry whose key resolves to a non-empty address, carrying the
    entry's 1-based position, the lower-cased address and the entry's
    proxy. *)
Definition expected_agents (ethers_address : string -> option string)
    (offset : nat) (entries : list Credential) : list (nat * string * option string) :=
  omap (fun x => x)
    (imap (fun i item =>
             match Utils.getWalletFromPrivateKey ethers_address (privateKey item) with
             | Some address =>
                 if JS.truthy_string address
                 then Some (offset + i + 1, JS.toLowerCase address, cred_proxy item)%nat
                 else None
             | None => None
             end) entries).

Definition agent_summary (b : Bot) : nat * string * option string :=
  (botIndex b, wallet b, proxy b).



(** The first character of a string is not white space (or there is none). *)
Definition clean_start (s : string) : Prop := JS.trimStart s = s.

(** ** Further scenarios *)

Module Scenario2.

(** The world [w] on a disk that refuses every write. *)
Definition on_broken_disk (w : World) : World :=
  {| root := root w; clock := clock w; files := files w; sessions := sessions w;
     service := service w; sent := sent w; disk := fun _ => false;
     written := written w; trace := trace w |}.

(** The agent of [address1] resumed from a session file with
    [earnings: null]; the service then accepts a report with balance 9. *)
Definition null_world : World :=
  Scenario.world [Respond 120 (Scenario.registered (Some 1%Q) None);
                  Respond 90 (Scenario.accepted 9)]
    ∅ {[ Scenario.session_path1 := Doc Scenario.null_earnings_session ]}.
Definition null_bot : Bot := fst (KaleidoMiningBot.initialize 0 Scenario.fresh_bot null_world).
Definition null_now : World :=
  sleep 200 (snd (KaleidoMiningBot.initialize 0 Scenario.fresh_bot null_world)).

(** A later start of the program on the files the resumed agent of
    [Scenario.resume_world] left when it was stopped; the service now
    reports balance 0. *)
Definition stopped : JS.Promise Q * Bot * World :=
  KaleidoMiningBot.stop Scenario.resumed_bot Scenario.resumed_world.
Definition restart_world : World :=
  {| root := "/app"; clock := 1700000900000; files := ∅;
     sessions := sessions (snd stopped);
     service := scripted [Respond 100 (Scenario.registered (Some 0%Q) (Some 0%Q))];
     sent := 0; disk := fun _ => true; written := 0; trace := [] |}.

(** One registered key; at shutdown the service answers no attempt of the
    final report within the request timeout. *)
Definition silent_world : World :=
  Scenario.world [Respond 120 (Scenario.registered (Some 4%Q) None);
                  Fail 10000 "timeout of 10000ms exceeded";
                  Fail 10000 "timeout of 10000ms exceeded";
                  Fail 10000 "timeout of 10000ms exceeded"]
    Scenario.one_key ∅.
Definition silent_started : Coordinator * World :=
  MiningCoordinator.start Scenario.ethers_address 0 MiningCoordinator.constructor silent_world.

(** The coordinator of [Scenario.unregistered_started] while its shutdown
    is in progress. *)
Definition shutting_down : Coordinator :=
  {| bots := bots (fst Scenario.unregistered_started); totalPaid := 0;
     isRunning := true; isShuttingDown := true |}.

End Scenario2.

(** The number of waits of exactly [ms] milliseconds among the events. *)
Definition count_sleeps (ms : Z) (evs : list event) : nat :=
  length (List.filter (fun x => x =? ms) (sleeps_of evs)).

(** A secrets file with three entries of which the second is no key. *)
Definition three_entries : gmap string string :=
  {[ "/app/pk.txt" := Scenario.key1 +:+ Scenario.newline +:+ "not-a-key" +:+ Scenario.newline
                      +:+ "0x" +:+ Scenario.key2 +:+ Scenario.newline ]}.

(** ** The model at work *)

Import KaleidoMiningBot.

Example toLowerCase_address :
  JS.toLowerCase Scenario.address1 = "0x7e5f4552091a69125d5dfcb7b8c2659029395bdf".
Proof. reflexivity. Qed.

Example parse_lines_skips_blank_and_comment :
  MiningCoordinator.parse_lines
    ("  k0 " +:+ Scenario.newline +:+ Scenario.newline +:+ "# note" +:+ Scenario.newline
     +:+ "k1" +:+ String "013"%char Scenario.newline)
  = ["k0"; "k1"].
Proof. reflexivity. Qed.

Example assign_proxies_three_keys_two_proxies :
  MiningCoordinator.assign_proxies ["k0"; "k1"; "k2"] ["p0"; "p1"]
  = [ {| privateKey := "k0"; cred_proxy := Some "p0" |};
      {| privateKey := "k1"; cred_proxy := Some "p1" |};
      {| privateKey := "k2"; cred_proxy := Some "p0" |} ].
Proof. reflexivity. Qed.

Example getWalletFromPrivateKey_prefix :
  Utils.getWalletFromPrivateKey Scenario.ethers_address Scenario.key1 = Some Scenario.address1 /\
  Utils.getWalletFromPrivateKey Scenario.ethers_address ("0x" +:+ Scenario.key1)
  = Some Scenario.address1 /\
  Utils.getWalletFromPrivateKey Scenario.ethers_address "not a key" = None.
Proof. repeat split; reflexivity. Qed.

Example retry_three_failures :
  let r := retryRequest (api_call (CheckRegistration "0xab")) "Registration check" 3
             (Scenario.world [] ∅ ∅) in
  fst r = JS.Throw "timeout of 10000ms exceeded" /\
  trace (snd r) = [EvRequest (CheckRegistration "0xab"); EvSleep 2000;
                   EvRequest (CheckRegistration "0xab"); EvSleep 4000;
                   EvRequest (CheckRegistration "0xab")] /\
  clock (snd r) = 1700000000000 + 3 * 10000 + 2000 + 4000.
Proof. repeat split; reflexivity. Qed.

(** A first run followed by a stop: the final report is accepted with
    balance 7, which is written to the session file and returned. *)
Example first_run_then_stop :
  let w := Scenario.world [Respond 120 (Scenario.registered (Some 3%Q) None);
                           Respond 90 (Scenario.accepted 7)] ∅ ∅ in
  let '(b, w1) := initialize 0 Scenario.fresh_bot w in
  let '(p, b', w2) := stop b (sleep 5000 w1) in
  earnings_total b = Some 3%Q /\
  p = JS.Resolved 7%Q /\
  isActive (miningState b') = false /\
  sessions w2 !! Scenario.session_path1
  = Some (Doc {| doc_startTime := Some (inject_Z 1700000000120);
                 doc_earnings := Some {| total := 7 |};
                 doc_referralBonus := 0 |}).
Proof. vm_compute. repeat split; reflexivity. Qed.

(** ** Basic facts about the world operations *)

Lemma api_call_effect (req : Request) (w : World) :
  let w' := snd (api_call req w) in
  trace w' = trace w ++ [EvRequest req] /\ sent w' = S (sent w) /\
  service w' = service w /\ sessions w' = sessions w /\
  written w' = written w /\ disk w' = disk w /\ files w' = files w /\ root w' = root w.
Proof. unfold api_call. destruct (service w (sent w)); simpl; repeat split; reflexivity. Qed.

Lemma api_call_fail (req : Request) (w : World) (latency : Z) (msg : string) :
  service w (sent w) = Fail latency msg ->
  fst (api_call req w) = JS.Throw msg.
Proof. intros H. unfold api_call. rewrite H. reflexivity. Qed.

Lemma api_call_respond (req : Request) (w : World) (latency : Z) (data : Body) :
  service w (sent w) = Respond latency data ->
  fst (api_call req w) = JS.Normal data.
Proof. intros H. unfold api_call. rewrite H. reflexivity. Qed.

(** The retry loop when every remaining attempt fails. *)
Lemma retry_loop_all_fail (req : Request) (N : nat) :
  forall (remaining i : nat) (w : World),
    (i + remaining = N)%nat -> (0 < remaining)%nat ->
    (forall k, (k < remaining)%nat -> is_fail (service w (sent w + k))) ->
    exists w' latency msg,
      retryRequest_loop (api_call req) N i remaining w = (JS.Throw msg, w') /\
      service w (sent w + (remaining - 1)) = Fail latency msg /\
      sent w' = (sent w + remaining)%nat /\
      service w' = service w /\ sessions w' = sessions w /\ written w' = written w /\
      trace w' = trace w
        ++ concat (map (fun k => [EvRequest req; EvSleep (2000 * Z.of_nat k)])
                       (seq (S i) (remaining - 1)))
        ++ [EvRequest req].
Proof.
  induction remaining as [|r IH]; intros i w Hsum Hpos Hfail; [lia|].
  pose proof (Hfail 0%nat ltac:(lia)) as H0. rewrite Nat.add_0_r in H0.
  destruct (service w (sent w)) as [latency msg|] eqn:Hs; [|contradiction].
  pose proof (api_call_effect req w) as (Ht & Hn & Hsv & Hse & Hwr & _).
  pose proof (api_call_fail req w latency msg Hs) as Hr.
  simpl. destruct (api_call req w) as [res w1]. simpl in *. subst res.
  destruct (Nat.eqb_spec i (N - 1)) as [Heq|Hne].
  - assert (r = 0%nat) by lia. subst r. exists w1, latency, msg.
    simpl. rewrite Nat.add_0_r. repeat split; try assumption. lia.
  - assert (0 < r)%nat by lia.
    destruct (IH (S i) (sleep (2000 * (Z.of_nat i + 1)) w1)) as (w' & l' & m' & Hrun & Hlast & Hsent & Hsv' & Hse' & Hwr' & Htr);
      [lia|assumption| |].
    + intros k Hk. simpl. rewrite Hsv, Hn.
      replace (S (sent w) + k)%nat with (sent w + S k)%nat by lia. apply Hfail. lia.
    + exists w', l', m'. rewrite Hrun. simpl in *. rewrite Hsv, Hn in Hlast.
      repeat split.
      * rewrite <- Hlast. f_equal. lia.
      * lia.
      * congruence.
      * congruence.
      * congruence.
      * rewrite Htr, Ht. replace (r - 0)%nat with (S (r - 1)) by lia.
        replace (Z.of_nat i + 1) with (Z.of_nat (S i)) by lia.
        cbn [seq map concat]. rewrite <- !app_assoc. reflexivity.
Qed.

(** The retry loop when attempt [k] (counted from 0 among the remaining
    ones) is the first to succeed. *)
Lemma retry_loop_first_success (req : Request) (N : nat) (latency : Z) (data : Body) :
  forall (k remaining i : nat) (w : World),
    (k < remaining)%nat ->
    (i + remaining = N)%nat ->
    (forall j, (j < k)%nat -> is_fail (service w (sent w + j))) ->
    service w (sent w + k) = Respond latency data ->
    exists w',
      retryRequest_loop (api_call req) N i remaining w = (JS.Normal (Some data), w') /\
      sent w' = (sent w + S k)%nat /\
      service w' = service w /\ sessions w' = sessions w /\ written w' = written w /\
      trace w' = trace w
        ++ concat (map (fun k => [EvRequest req; EvSleep (2000 * Z.of_nat k)])
                       (seq (S i) k))
        ++ [EvRequest req].
Proof.
  induction k as [|k IH]; intros remaining i w Hlt Hsum Hfail Hok;
    (destruct remaining as [|r]; [lia|]);
    pose proof (api_call_effect req w) as (Ht & Hn & Hsv & Hse & Hwr & _).
  - rewrite Nat.add_0_r in Hok.
    pose proof (api_call_respond req w latency data Hok) as Hr.
    simpl. destruct (api_call req w) as [res w1]. simpl in *. subst res.
    exists w1. repeat split; try assumption. lia.
  - pose proof (Hfail 0%nat ltac:(lia)) as H0. rewrite Nat.add_0_r in H0.
    destruct (service w (sent w)) as [l0 msg|] eqn:Hs; [|contradiction].
    pose proof (api_call_fail req w l0 msg Hs) as Hr.
    simpl. destruct (api_call req w) as [res w1]. simpl in *. subst res.
    destruct (Nat.eqb_spec i (N - 1)) as [Heq|Hne]; [lia|].
    destruct (IH r (S i) (sleep (2000 * (Z.of_nat i + 1)) w1))
      as (w' & Hrun & Hsent & Hsv' & Hse' & Hwr' & Htr); [lia|lia| | |].
    + intros j Hj. simpl. rewrite Hsv, Hn.
      replace (S (sent w) + j)%nat with (sent w + S j)%nat by lia. apply Hfail. lia.
    + simpl. rewrite Hsv, Hn.
      replace (S (sent w) + k)%nat with (sent w + S k)%nat by lia. exact Hok.
    + exists w'. rewrite Hrun. simpl in *. repeat split; try congruence; [lia|].
      rewrite Htr, Ht. replace (Z.of_nat i + 1) with (Z.of_nat (S i)) by lia.
      cbn [seq map concat]. rewrite <- !app_assoc. reflexivity.
Qed.

(** Whatever the service answers, retrying a request touches neither the
    files nor the session store. *)
Lemma retry_loop_frame (req : Request) (N : nat) :
  forall (remaining i : nat) (w : World),
    let w' := snd (retryRequest_loop (api_call req) N i remaining w) in
    sessions w' = sessions w /\ written w' = written w /\ disk w' = disk w /\
    files w' = files w /\ root w' = root w /\ service w' = service w /\
    exists evs, trace w' = trace w ++ evs.
Proof.
  induction remaining as [|r IH]; intros i w; simpl.
  - repeat split. exists []. by rewrite app_nil_r.
  - pose proof (api_call_effect req w) as (Ht & Hn & Hsv & Hse & Hwr & Hd & Hf & Hr).
    destruct (api_call req w) as [[a|msg] w1]; simpl in *.
    + repeat split; try assumption. eauto.
    + destruct (Nat.eqb i (N - 1)); simpl.
      * repeat split; try assumption. eauto.
      * specialize (IH (S i) (sleep (2000 * (Z.of_nat i + 1)) w1)).
        destruct IH as (H1 & H2 & H3 & H4 & H5 & H6 & evs & H7). simpl in *.
        repeat split; try congruence.
        exists ([EvRequest req; EvSleep (2000 * (Z.of_nat i + 1))] ++ evs).
        rewrite H7, Ht. rewrite <- !app_assoc. reflexivity.
Qed.

Lemma retryRequest_frame (req : Request) (name : string) (N : nat) (w : World) :
  let w' := snd (retryRequest (api_call req) name N w) in
  sessions w' = sessions w /\ written w' = written w /\ disk w' = disk w /\
  files w' = files w /\ root w' = root w /\ service w' = service w /\
  exists evs, trace w' = trace w ++ evs.
Proof. apply retry_loop_frame. Qed.

(** ** The shape of the retry trace *)

Lemma requests_of_attempts_from (req : Request) :
  forall (n a : nat),
    requests_of (concat (map (fun i => [EvRequest req; EvSleep (2000 * Z.of_nat i)]) (seq a n))
                 ++ [EvRequest req]) = repeat req (S n).
Proof.
  induction n as [|n IH]; intros a; [reflexivity|].
  cbn [seq map concat]. unfold requests_of in *. rewrite <- app_assoc.
  cbn [app omap]. simpl. f_equal. apply IH.
Qed.

Lemma sleeps_of_attempts_from (req : Request) :
  forall (n a : nat),
    sleeps_of (concat (map (fun i => [EvRequest req; EvSleep (2000 * Z.of_nat i)]) (seq a n))
               ++ [EvRequest req]) = map (fun i => 2000 * Z.of_nat i) (seq a n).
Proof.
  induction n as [|n IH]; intros a; [reflexivity|].
  cbn [seq map concat]. unfold sleeps_of in *. rewrite <- app_assoc.
  cbn [app omap]. simpl. f_equal. apply IH.
Qed.

Lemma requests_of_attempts (req : Request) (n : nat) :
  (0 < n)%nat -> requests_of (attempts req n) = repeat req n.
Proof.
  intros Hn. unfold attempts. rewrite requests_of_attempts_from.
  f_equal. lia.
Qed.

Lemma sleeps_of_attempts (req : Request) (n : nat) :
  sleeps_of (attempts req n) = map (fun i => 2000 * Z.of_nat i) (seq 1 (n - 1)).
Proof. apply sleeps_of_attempts_from. Qed.

(** ** One balance update, by outcome of the submission *)

Lemma updateBalance_success (final : bool) (b : Bot) (w w1 : World) (data : Body) (e : Earnings) :
  retryRequest (api_call (update_request b w)) "Balance update" 3 w
    = (JS.Normal (Some data), w1) ->
  success data = true ->
  currentEarnings b = Some e ->
  let b' := set_currentEarnings (Some {| total := balance data |})
              (set_lastUpdate (Some (clock w)) b) in
  updateBalance final b w
  = (b', console_log (Status (botIndex b) final (balance data)) (saveSession b' w1)).
Proof.
  intros Hreq Hok He. unfold updateBalance, update_request in *. simpl in *.
  rewrite Hreq, Hok, He. reflexivity.
Qed.

Lemma updateBalance_failure (final : bool) (b : Bot) (w w1 : World)
    (r : JS.Completion (option Body)) :
  retryRequest (api_call (update_request b w)) "Balance update" 3 w = (r, w1) ->
  match r with JS.Normal (Some data) => success data = false | _ => True end ->
  updateBalance final b w = (set_lastUpdate (Some (clock w)) b, w1).
Proof.
  intros Hreq Hr. unfold updateBalance, update_request in *. simpl in *.
  rewrite Hreq. destruct r as [[data|]|msg]; try reflexivity.
  rewrite Hr. reflexivity.
Qed.

Lemma saveSession_effect (b : Bot) (w : World) :
  let w' := saveSession b w in
  trace w' = trace w ++ [EvWrite (sessionFile b) (session_record b) (disk w (written w))] /\
  written w' = S (written w) /\
  sessions w' = (if disk w (written w)
                 then <[sessionFile b := Doc (session_record b)]> (sessions w)
                 else sessions w) /\
  sent w' = sent w /\ service w' = service w /\ disk w' = disk w /\ clock w' = clock w.
Proof. unfold saveSession, writeFile. simpl. repeat split; reflexivity. Qed.

(** ** Strings *)

Lemma string_app_assoc (s1 s2 s3 : string) : (s1 +:+ s2) +:+ s3 = s1 +:+ (s2 +:+ s3).
Proof.
  induction s1 as [|c s1 IH]; [reflexivity|].
  change (String c ((s1 +:+ s2) +:+ s3) = String c (s1 +:+ (s2 +:+ s3))).
  by rewrite IH.
Qed.

Lemma toLowerCase_length (s : string) :
  String.length (JS.toLowerCase s) = String.length s.
Proof. induction s as [|c s IH]; simpl; [reflexivity|]. f_equal. exact IH. Qed.

Lemma string_app_cancel_r (t : string) :
  forall s1 s2 : string,
    String.length s1 = String.length s2 -> s1 +:+ t = s2 +:+ t -> s1 = s2.
Proof.
  induction s1 as [|c s1 IH]; intros [|d s2] Hlen Heq; simpl in Hlen; try discriminate.
  - reflexivity.
  - change (String c (s1 +:+ t) = String d (s2 +:+ t)) in Heq.
    injection Heq as Hc Hs. f_equal; [exact Hc|].
    apply IH; [lia | exact Hs].
Qed.

Lemma parse_lines_empty : MiningCoordinator.parse_lines "" = [].
Proof. reflexivity. Qed.

(** ** A failed initialisation *)

Lemma initialize_failure (cycles : nat) (b : Bot) (w w1 : World)
    (r : JS.Completion (option Body)) :
  retryRequest (api_call (CheckRegistration (wallet b))) "Registration check" 3 w = (r, w1) ->
  match r with JS.Normal (Some data) => isRegistered data = false | _ => True end ->
  initialize cycles b w = (set_isActive false b, w1).
Proof.
  intros Hreq Hr. unfold initialize. rewrite Hreq.
  destruct r as [[data|]|msg]; try reflexivity. rewrite Hr. reflexivity.
Qed.

(** ** Stopping agents *)

Lemma retryRequest_first_request (req : Request) (name : string) (n : nat) (w : World) :
  exists evs,
    trace (snd (retryRequest (api_call req) name (S n) w)) = trace w ++ EvRequest req :: evs.
Proof.
  unfold retryRequest. cbn [retryRequest_loop].
  pose proof (api_call_effect req w) as (Ht & _).
  destruct (api_call req w) as [[a|msg] w1]; simpl in *.
  - exists []. exact Ht.
  - destruct (n - 0)%nat; simpl.
    + exists []. exact Ht.
    + pose proof (retry_loop_frame req (S n) n 1 (sleep (2000 * (Z.of_nat 0 + 1)) w1))
        as (_ & _ & _ & _ & _ & _ & evs & He).
      exists (EvSleep (2000 * (Z.of_nat 0 + 1)) :: evs). rewrite He. simpl.
      rewrite Ht, <- !app_assoc. reflexivity.
Qed.

Lemma updateBalance_unfold (final : bool) (b : Bot) (w : World) :
  updateBalance final b w
  = let b1 := set_lastUpdate (Some (clock w)) b in
    match retryRequest (api_call (update_request b w)) "Balance update" 3 w with
    | (JS.Normal (Some data), w1) =>
        if success data then
          match currentEarnings b with
          | Some _ =>
              let b2 := set_currentEarnings (Some {| total := balance data |}) b1 in
              (b2, console_log (Status (botIndex b) final (balance data)) (saveSession b2 w1))
          | None => (b1, w1)
          end
        else (b1, w1)
    | (JS.Normal None, w1) => (b1, w1)
    | (JS.Throw _, w1) => (b1, w1)
    end.
Proof. reflexivity. Qed.

Lemma updateBalance_first_request (final : bool) (b : Bot) (w : World) :
  exists evs,
    trace (snd (updateBalance final b w)) = trace w ++ EvRequest (update_request b w) :: evs.
Proof.
  rewrite updateBalance_unfold.
  destruct (retryRequest_first_request (update_request b w) "Balance update" 2 w)
    as [evs He].
  remember (update_request b w) as req eqn:Hreq. clear Hreq.
  destruct (retryRequest (api_call req) "Balance update" 3 w) as [[[data|]|msg] w1];
    cbn [fst snd] in *; cbv zeta; eauto.
  destruct (success data); eauto.
  destruct (currentEarnings b); eauto.
  exists (evs ++ [EvWrite (sessionFile b)
                    (session_record (set_currentEarnings (Some {| total := balance data |})
                                       (set_lastUpdate (Some (clock w)) b)))
                    (disk w1 (written w1));
                  EvConsole (Status (botIndex b) final (balance data))]).
  cbn [snd]. unfold console_log, saveSession, writeFile, emit. cbn [trace snd].
  rewrite He, <- !app_assoc. reflexivity.
Qed.

Lemma stop_trace (b : Bot) (w : World) :
  exists s evs,
    trace (snd (stop b w))
    = trace w ++ EvConsole (Stopping (botIndex b))
                 :: EvRequest (UpdateBalance (wallet b) s) :: evs.
Proof.
  unfold stop.
  destruct (updateBalance_first_request true (set_isActive false b)
              (console_log (Stopping (botIndex b)) w)) as [evs He].
  destruct (updateBalance true _ _) as [b1 w1]. simpl in He.
  exists (fst (calculateSessionEarnings (set_isActive false b)
                 (console_log (Stopping (botIndex b)) w))).
  exists (evs ++ [EvWrite (sessionFile b1) (session_record b1) (disk w1 (written w1));
                  EvConsole (Stopped (botIndex b))]).
  destruct (currentEarnings b1); simpl; rewrite He, <- !app_assoc; reflexivity.
Qed.

Lemma stop_all_spec :
  forall (l : list Bot) (w : World),
    let r := MiningCoordinator.stop_all l w in
    length (fst (fst r)) = length l /\ length (snd (fst r)) = length l /\
    exists evs,
      trace (snd r) = trace w ++ evs /\
      forall i b, l !! i = Some b ->
        exists wi s,
          fst (fst r) !! i = Some (fst (fst (stop b wi))) /\
          snd (fst r) !! i = Some (snd (fst (stop b wi))) /\
          EvConsole (Stopping (botIndex b)) ∈ evs /\
          EvRequest (UpdateBalance (wallet b) s) ∈ evs.
Proof.
  induction l as [|b l IH]; intros w; simpl.
  - repeat split. exists []. rewrite app_nil_r. split; [reflexivity|].
    intros i b H. discriminate.
  - unfold MiningCoordinator.stop_callback, MiningCoordinator.call_stop.
    destruct (stop_trace b w) as (s & evs1 & Ht1).
    destruct (stop b w) as [[p b'] w1] eqn:Hstop. simpl in Ht1.
    specialize (IH w1). destruct (MiningCoordinator.stop_all l w1) as [[ps l'] w2].
    simpl in *. destruct IH as (Hl1 & Hl2 & evs2 & Ht2 & Hall).
    split; [lia|]. split; [lia|].
    exists ((EvConsole (Stopping (botIndex b))
             :: EvRequest (UpdateBalance (wallet b) s) :: evs1) ++ evs2).
    split; [rewrite Ht2, Ht1, <- app_assoc; reflexivity|].
    intros [|i] b0 Hb0; simpl in *.
    + injection Hb0 as <-. exists w, s. rewrite Hstop. simpl.
      repeat split; try reflexivity; set_solver.
    + destruct (Hall i b0 Hb0) as (wi & s0 & H1 & H2 & H3 & H4).
      exists wi, s0. repeat split; try assumption; set_solver.
Qed.


Lemma stop_durations_length :
  forall (l : list Bot) (w : World),
    length (MiningCoordinator.stop_durations l w) = length l.
Proof.
  induction l as [|b l IH]; intros w; simpl; [reflexivity|].
  destruct (MiningCoordinator.stop_callback b w) as [[p b'] w1]. simpl.
  rewrite IH. reflexivity.
Qed.

Lemma in_time_Forall (ds : list Z) :
  Forall (fun d => d < MiningCoordinator.FORCE_EXIT_TIMEOUT) ds ->
  forallb MiningCoordinator.in_time ds = true.
Proof.
  induction 1 as [|d ds Hd _ IH]; simpl; [reflexivity|].
  rewrite IH, andb_true_r. unfold MiningCoordinator.in_time. apply Z.ltb_lt, Hd.
Qed.

Lemma settled_in_time_all :
  forall (ps : list (JS.Promise Q)) (ds : list Z),
    length ps = length ds ->
    forallb MiningCoordinator.in_time ds = true ->
    MiningCoordinator.settled_in_time ps ds = ps.
Proof.
  unfold MiningCoordinator.settled_in_time.
  induction ps as [|p ps IH]; intros [|d ds] Hlen Hall; simpl in *; try reflexivity;
    try discriminate.
  apply andb_true_iff in Hall as [Hd Hds]. rewrite Hd. simpl.
  rewrite IH; [reflexivity|lia|exact Hds].
Qed.


(** [shutdown] when every [stop()] settles before the timer and all of
    them resolved ... *)
Lemma shutdown_resolved (c : Coordinator) (w : World) (vs : list Q) :
  isShuttingDown c = false ->
  Forall (fun d => d < MiningCoordinator.FORCE_EXIT_TIMEOUT)
    (MiningCoordinator.stop_durations (bots c) (console_log ShuttingDown w)) ->
  MiningCoordinator.Promise_all
    (fst (fst (MiningCoordinator.stop_all (bots c) (console_log ShuttingDown w))))
  = JS.Resolved vs ->
  let r := MiningCoordinator.stop_all (bots c) (console_log ShuttingDown w) in
  MiningCoordinator.shutdown c w
  = ({| bots := snd (fst r); totalPaid := fold_left Qplus vs 0%Q;
        isRunning := isRunning c; isShuttingDown := true |},
     process_exit 0
       (console_log (FinalSummary (length (bots c)) (fold_left Qplus vs 0%Q)) (snd r))).
Proof.
  intros Hs Hd Hall r. subst r. unfold MiningCoordinator.shutdown. rewrite Hs.
  pose proof (stop_all_spec (bots c) (console_log ShuttingDown w)) as (Hlen1 & Hlen & _).
  pose proof (stop_durations_length (bots c) (console_log ShuttingDown w)) as Hlend.
  apply in_time_Forall in Hd.
  destruct (MiningCoordinator.stop_all (bots c) (console_log ShuttingDown w))
    as [[ps l'] w2]. cbn [fst snd] in *.
  rewrite settled_in_time_all by (assumption || lia).
  rewrite Hall, Hd, Hlen. reflexivity.
Qed.

(** ... when one of them rejected ... *)
Lemma shutdown_rejected (c : Coordinator) (w : World) (msg : string) :
  isShuttingDown c = false ->
  Forall (fun d => d < MiningCoordinator.FORCE_EXIT_TIMEOUT)
    (MiningCoordinator.stop_durations (bots c) (console_log ShuttingDown w)) ->
  MiningCoordinator.Promise_all
    (fst (fst (MiningCoordinator.stop_all (bots c) (console_log ShuttingDown w))))
  = JS.Rejected msg ->
  let r := MiningCoordinator.stop_all (bots c) (console_log ShuttingDown w) in
  MiningCoordinator.shutdown c w
  = ({| bots := snd (fst r); totalPaid := totalPaid c;
        isRunning := isRunning c; isShuttingDown := true |},
     process_exit 1 (console_log (ErrorDuringShutdown msg) (snd r))).
Proof.
  intros Hs Hd Hall r. subst r. unfold MiningCoordinator.shutdown. rewrite Hs.
  pose proof (stop_all_spec (bots c) (console_log ShuttingDown w)) as (Hlen1 & Hlen & _).
  pose proof (stop_durations_length (bots c) (console_log ShuttingDown w)) as Hlend.
  apply in_time_Forall in Hd.
  destruct (MiningCoordinator.stop_all (bots c) (console_log ShuttingDown w))
    as [[ps l'] w2]. cbn [fst snd] in *.
  rewrite settled_in_time_all by (assumption || lia).
  rewrite Hall. reflexivity.
Qed.

(** ** Starting agents *)




(** ** The retry policy *)

(** C6.  [retryRequest] with attempt budget [N >= 1].  If every attempt
    fails, the request is issued exactly [N] times, the error of the [N]-th
    attempt is thrown to the caller, and the wait after the [i]-th failed
    attempt ([i] counted from 1, [i < N]) is [2000 * i] ms.  If attempt
    [k + 1] is the first to succeed, its response is returned after exactly
    [k + 1] requests and the same waits, and nothing is issued afterwards. *)
Theorem retryRequest_policy (N : nat) (req : Request) (name : string) (w : World) :
  (0 < N)%nat ->
  ((forall k, (k < N)%nat -> is_fail (service w (sent w + k))) ->
   exists w' latency msg,
     retryRequest (api_call req) name N w = (JS.Throw msg, w') /\
     service w (sent w + (N - 1)) = Fail latency msg /\
     sent w' = (sent w + N)%nat /\
     trace w' = trace w ++ attempts req N /\
     requests_of (attempts req N) = repeat req N /\
     sleeps_of (attempts req N) = map (fun i => 2000 * Z.of_nat i) (seq 1 (N - 1)))
  /\
  (forall k latency data,
     (k < N)%nat ->
     (forall j, (j < k)%nat -> is_fail (service w (sent w + j))) ->
     service w (sent w + k) = Respond latency data ->
     exists w',
       retryRequest (api_call req) name N w = (JS.Normal (Some data), w') /\
       sent w' = (sent w + S k)%nat /\
       trace w' = trace w ++ attempts req (S k) /\
       requests_of (attempts req (S k)) = repeat req (S k) /\
       sleeps_of (attempts req (S k)) = map (fun i => 2000 * Z.of_nat i) (seq 1 k)).
Proof.
  intros HN. split.
  - intros Hfail.
    destruct (retry_loop_all_fail req N N 0 w) as (w' & l & m & Hrun & Hlast & Hsent & _ & _ & _ & Htr);
      [lia|assumption|assumption|].
    exists w', l, m. unfold retryRequest. rewrite Hrun.
    repeat split; try assumption.
    + apply requests_of_attempts; assumption.
    + apply sleeps_of_attempts.
  - intros k latency data Hk Hfail Hok.
    destruct (retry_loop_first_success req N latency data k N 0 w)
      as (w' & Hrun & Hsent & _ & _ & _ & Htr); [assumption|lia|assumption|assumption|].
    exists w'. unfold retryRequest. rewrite Hrun.
    repeat split; try assumption.
    + unfold attempts. replace (S k - 1)%nat with k by lia. exact Htr.
    + apply requests_of_attempts. lia.
    + rewrite sleeps_of_attempts. f_equal. f_equal. lia.
Qed.

(** With a budget of 0 the loop body never runs: no request is issued and
    the call resolves with [undefined]. *)
Remark retryRequest_zero_budget {A : Type} (requestFn : World -> JS.Completion A * World)
    (name : string) (w : World) :
  retryRequest requestFn name 0 w = (JS.Normal None, w).
Proof. reflexivity. Qed.

Lemma retryRequest_policy_witness :
  (exists w' latency msg,
     retryRequest (api_call (CheckRegistration "0xab")) "Registration check" 3
       (Scenario.world [Fail 10 "ECONNRESET"; Fail 20 "502"; Fail 30 "503"] ∅ ∅)
     = (JS.Throw msg, w') /\
     Fail 30 "503" = Fail latency msg /\
     sent w' = 3%nat /\
     trace w' = attempts (CheckRegistration "0xab") 3)
  /\
  (exists w',
     retryRequest (api_call (CheckRegistration "0xab")) "Registration check" 3
       (Scenario.world [Fail 10 "ECONNRESET"; Respond 20 Scenario.not_registered] ∅ ∅)
     = (JS.Normal (Some Scenario.not_registered), w') /\
     sent w' = 2%nat /\
     trace w' = attempts (CheckRegistration "0xab") 2).
Proof.
  split.
  - destruct (proj1 (retryRequest_policy 3 (CheckRegistration "0xab") "Registration check"
                (Scenario.world [Fail 10 "ECONNRESET"; Fail 20 "502"; Fail 30 "503"] ∅ ∅)
                ltac:(lia)))
      as (w' & l & m & H1 & H2 & H3 & H4 & _).
    + intros k Hk. destruct k as [|[|[|k]]]; simpl; try exact I. lia.
    + exists w', l, m. repeat split; assumption.
  - destruct (proj2 (retryRequest_policy 3 (CheckRegistration "0xab") "Registration check"
                (Scenario.world [Fail 10 "ECONNRESET"; Respond 20 Scenario.not_registered] ∅ ∅)
                ltac:(lia)) 1%nat 20 Scenario.not_registered)
      as (w' & H1 & H2 & H3 & _).
    + lia.
    + intros j Hj. destruct j as [|j]; simpl; [exact I|lia].
    + reflexivity.
    + exists w'. repeat split; assumption.
Defined.

(** ** Reconciliation on start-up *)

(** C1.  When the registration check succeeds, the agent becomes active
    and: if the session store holds a record for its session file, the
    agent's [startTime], [currentEarnings] (hence [earnings.total]) and
    [referralBonus] are the record's, whatever the response carried;
    otherwise (no file, or one that does not parse) [earnings.total] is the
    response's balance, [referralBonus] the response's bonus, each 0 when
    absent, and [startTime] is the instant the check completed. *)
Theorem initialize_reconciles (b : Bot) (w w1 : World) (data : Body) :
  retryRequest (api_call (CheckRegistration (wallet b))) "Registration check" 3 w
    = (JS.Normal (Some data), w1) ->
  isRegistered data = true ->
  let b' := fst (initialize 0 b w) in
  isActive (miningState b') = true /\
  match sessions w !! sessionFile b with
  | Some (Doc record) =>
      startTime (miningState b') = doc_startTime record /\
      currentEarnings b' = doc_earnings record /\
      referralBonus b' = doc_referralBonus record
  | Some Malformed | None =>
      startTime (miningState b') = Some (inject_Z (clock w1)) /\
      currentEarnings b' =
        Some {| total := match userData data with
                         | Some ud => match ud_balance ud with Some x => x | None => 0%Q end
                         | None => 0%Q
                         end |} /\
      referralBonus b' =
        match userData data with
        | Some ud => match ud_referralBonus ud with Some x => x | None => 0%Q end
        | None => 0%Q
        end
  end.
Proof.
  intros Hreq Hreg b'. subst b'. unfold initialize. rewrite Hreq, Hreg.
  pose proof (retryRequest_frame (CheckRegistration (wallet b)) "Registration check" 3 w)
    as (Hse & _).
  rewrite Hreq in Hse. simpl in Hse. unfold loadSession. rewrite Hse.
  destruct (sessions w !! sessionFile b) as [[record|]|]; simpl.
  - destruct (proxy b); simpl; repeat split; reflexivity.
  - destruct (proxy b), (userData data) as [[[x|] [y|]]|]; simpl; repeat split; reflexivity.
  - destruct (proxy b), (userData data) as [[[x|] [y|]]|]; simpl; repeat split; reflexivity.
Qed.

Lemma initialize_reconciles_witness :
  let b' := fst (initialize 0 Scenario.fresh_bot
                   (Scenario.world
                      [Respond 120 (Scenario.registered (Some (100 # 1)) (Some (1 # 2)))]
                      ∅ Scenario.old_store)) in
  let b0 := fst (initialize 0 Scenario.fresh_bot Scenario.first_run_world) in
  (isActive (miningState b') = true /\
   startTime (miningState b') = Some (inject_Z 1690000000000) /\
   currentEarnings b' = Some {| total := 5 |} /\
   referralBonus b' = 1 # 10) /\
  (isActive (miningState b0) = true /\
   startTime (miningState b0) = Some (inject_Z 1700000000120) /\
   currentEarnings b0 = Some {| total := 100 # 1 |} /\
   referralBonus b0 = 1 # 2).
Proof.
  split; [|
    pose proof (initialize_reconciles Scenario.fresh_bot Scenario.first_run_world
                  (snd (retryRequest
                          (api_call (CheckRegistration (wallet Scenario.fresh_bot)))
                          "Registration check" 3 Scenario.first_run_world))
                  (Scenario.registered (Some (100 # 1)) (Some (1 # 2)))
                  eq_refl eq_refl) as H0;
    vm_compute in H0; exact H0 ].
  pose (w := Scenario.world
               [Respond 120 (Scenario.registered (Some (100 # 1)) (Some (1 # 2)))]
               ∅ Scenario.old_store).
  pose proof (initialize_reconciles Scenario.fresh_bot w
                (snd (retryRequest (api_call (CheckRegistration (wallet Scenario.fresh_bot)))
                        "Registration check" 3 w))
                (Scenario.registered (Some (100 # 1)) (Some (1 # 2)))
                eq_refl eq_refl) as H.
  vm_compute in H. exact H.
Defined.

(** ** Successful balance updates *)




(** C3 fails as stated: the service confirms 5 for the first report and 3
    for the second, both with [success = true], and [earnings.total] goes
    from 5 down to 3. *)
Lemma total_decreases_counterexample :
  earnings_total (fst (initialize 1 Scenario.fresh_bot Scenario.shrinking_world)) = Some 5%Q /\
  earnings_total (fst (initialize 2 Scenario.fresh_bot Scenario.shrinking_world)) = Some 3%Q /\
  requests_of (trace (snd (initialize 2 Scenario.fresh_bot Scenario.shrinking_world)))
  = [CheckRegistration "0x7e5f4552091a69125d5dfcb7b8c2659029395bdf";
     UpdateBalance "0x7e5f4552091a69125d5dfcb7b8c2659029395bdf" (0 # 20000000);
     UpdateBalance "0x7e5f4552091a69125d5dfcb7b8c2659029395bdf" (4543590 # 20000000)] /\
  ~ (5 <= 3)%Q.
Proof.
  split; [vm_compute; reflexivity|]. split; [vm_compute; reflexivity|].
  split; [vm_compute; reflexivity|]. intros H. vm_compute in H. apply H. reflexivity.
Qed.

(** C3, amended.  For an agent holding an earnings object, after a
    successful update [earnings.total] is the balance the service returned
    for that update, so over two consecutive successful updates the total
    does not decrease exactly when the returned balances do not.  An agent
    whose [currentEarnings] is null has no total, before and after. *)
Theorem total_follows_server_balance (final1 final2 : bool) (b : Bot)
    (w w1 wnext w2 : World) (data1 data2 : Body) :
  retryRequest (api_call (update_request b w)) "Balance update" 3 w
    = (JS.Normal (Some data1), w1) ->
  success data1 = true ->
  let b1 := fst (updateBalance final1 b w) in
  retryRequest (api_call (update_request b1 wnext)) "Balance update" 3 wnext
    = (JS.Normal (Some data2), w2) ->
  success data2 = true ->
  let b2 := fst (updateBalance final2 b1 wnext) in
  match currentEarnings b with
  | Some _ =>
      earnings_total b1 = Some (balance data1) /\
      earnings_total b2 = Some (balance data2) /\
      (forall t1 t2, earnings_total b1 = Some t1 -> earnings_total b2 = Some t2 ->
         ((t1 <= t2)%Q <-> (balance data1 <= balance data2)%Q))
  | None =>
      earnings_total b = None /\ earnings_total b1 = None /\ earnings_total b2 = None
  end.
Proof.
  intros H1 Hok1 b1 H2 Hok2 b2. subst b2.
  destruct (currentEarnings b) as [e|] eqn:He.
  - assert (Hb1 : b1 = set_currentEarnings (Some {| total := balance data1 |})
                         (set_lastUpdate (Some (clock w)) b)).
    { subst b1. rewrite (updateBalance_success final1 b w w1 data1 e H1 Hok1 He). reflexivity. }
    assert (He1 : currentEarnings b1 = Some {| total := balance data1 |})
      by (rewrite Hb1; reflexivity).
    rewrite (updateBalance_success final2 b1 wnext w2 data2 _ H2 Hok2 He1).
    unfold earnings_total. rewrite He1. simpl.
    repeat split; intros; simplify_eq; assumption.
  - assert (Hb1 : b1 = set_lastUpdate (Some (clock w)) b).
    { subst b1. rewrite updateBalance_unfold, H1, Hok1, He. reflexivity. }
    assert (He1 : currentEarnings b1 = None) by (rewrite Hb1; exact He).
    rewrite updateBalance_unfold, H2, Hok2, He1.
    unfold earnings_total. rewrite He, He1. simpl. rewrite He1. repeat split.
Qed.

Lemma total_follows_server_balance_witness :
  let b := fst (initialize 0 Scenario.fresh_bot Scenario.shrinking_world) in
  let w := snd (initialize 0 Scenario.fresh_bot Scenario.shrinking_world) in
  let b1 := fst (updateBalance false b w) in
  let wnext := sleep 30000 (snd (updateBalance false b w)) in
  let b2 := fst (updateBalance false b1 wnext) in
  earnings_total b1 = Some 5%Q /\ earnings_total b2 = Some 3%Q.
Proof.
  intros b w b1 wnext b2.
  pose proof (total_follows_server_balance false false b w
                (snd (retryRequest (api_call (update_request b w)) "Balance update" 3 w))
                wnext
                (snd (retryRequest (api_call (update_request b1 wnext)) "Balance update" 3 wnext))
                (Scenario.accepted 5) (Scenario.accepted 3)
                ltac:(vm_compute; reflexivity) eq_refl
                ltac:(vm_compute; reflexivity) eq_refl) as H.
  vm_compute in H |- *. destruct H as (H1 & H2 & _).
  split; [exact H1 | exact H2].
Defined.

(** ** Failed balance updates *)

(** C7.  When the submission of a balance update fails (the last retry
    threw, or the response says [success = false]), [updateBalance] writes
    no session file, leaves [currentEarnings] as it was and leaves
    [isActive] alone; an active agent's report loop then waits
    [UPDATE_INTERVAL] and goes on with its next iteration. *)
Theorem failed_update_skips_cycle (final : bool) (b : Bot) (w w1 : World)
    (r : JS.Completion (option Body)) :
  retryRequest (api_call (update_request b w)) "Balance update" 3 w = (r, w1) ->
  match r with JS.Normal (Some data) => success data = false | _ => True end ->
  let b' := fst (updateBalance final b w) in
  let w' := snd (updateBalance final b w) in
  currentEarnings b' = currentEarnings b /\
  sessions w' = sessions w /\ written w' = written w /\
  isActive (miningState b') = isActive (miningState b) /\
  (isActive (miningState b) = true ->
   forall cycles,
     startMiningLoop (S cycles) b w
     = startMiningLoop cycles (fst (updateBalance false b w))
         (sleep MINING_CONFIG.UPDATE_INTERVAL (snd (updateBalance false b w)))).
Proof.
  intros Hreq Hr b' w'. subst b' w'.
  rewrite (updateBalance_failure final b w w1 r Hreq Hr). simpl.
  pose proof (retryRequest_frame (update_request b w) "Balance update" 3 w)
    as (Hse & Hwr & _).
  rewrite Hreq in Hse, Hwr. simpl in Hse, Hwr.
  repeat split; try assumption.
  intros Hact cycles. cbn [startMiningLoop]. rewrite Hact.
  destruct (updateBalance false b w) as [b1 w1']. reflexivity.
Qed.

Lemma failed_update_skips_cycle_witness :
  let b' := fst (updateBalance false Scenario.refused_bot Scenario.refused_world) in
  let w' := snd (updateBalance false Scenario.refused_bot Scenario.refused_world) in
  currentEarnings b' = Some {| total := 0 |} /\
  sessions w' = ∅ /\ written w' = 0%nat /\
  isActive (miningState b') = true.
Proof.
  pose proof (failed_update_skips_cycle false
                Scenario.refused_bot Scenario.refused_world
                (snd (retryRequest
                        (api_call (update_request Scenario.refused_bot Scenario.refused_world))
                        "Balance update" 3 Scenario.refused_world))
                (JS.Normal (Some Scenario.refused))
                eq_refl eq_refl) as (H1 & H2 & H3 & H4 & _).
  repeat split; assumption.
Defined.

(** The same on a submission that fails on all three attempts. *)
Example failed_update_after_three_attempts :
  let b' := fst (updateBalance false Scenario.failing_bot Scenario.failing_now) in
  let w' := snd (updateBalance false Scenario.failing_bot Scenario.failing_now) in
  fst (retryRequest (api_call (update_request Scenario.failing_bot Scenario.failing_now))
         "Balance update" 3 Scenario.failing_now)
  = JS.Throw "Request failed with status code 502" /\
  length (requests_of (drop (length (trace Scenario.failing_now)) (trace w'))) = 3%nat /\
  currentEarnings b' = Some {| total := 0 |} /\
  written w' = 0%nat /\ isActive (miningState b') = true.
Proof. vm_compute. repeat split; reflexivity. Qed.

(** C10.  [updateBalance] moves [lastUpdate] to the instant of the call
    before it submits anything.  When the submission then fails,
    [lastUpdate] keeps that instant while [currentEarnings] and the session
    files stay as they were, and the next update, at any later instant,
    submits only the earnings of the time since the failed call: the failed
    window is not submitted again. *)
Theorem failed_update_keeps_lastUpdate (final : bool) (b : Bot) (w w1 : World)
    (r : JS.Completion (option Body)) :
  retryRequest (api_call (update_request b w)) "Balance update" 3 w = (r, w1) ->
  match r with JS.Normal (Some data) => success data = false | _ => True end ->
  let b' := fst (updateBalance final b w) in
  let w' := snd (updateBalance final b w) in
  lastUpdate (miningState (snd (calculateSessionEarnings b w))) = Some (clock w) /\
  lastUpdate (miningState b') = Some (clock w) /\
  currentEarnings b' = currentEarnings b /\
  sessions w' = sessions w /\
  forall wnext,
    update_request b' wnext
    = UpdateBalance (wallet b)
        ((hashrate (stats b) * ((inject_Z (clock wnext) - inject_Z (clock w)) / 1000)
          * MINING_CONFIG.EARNINGS_RATE) * (1 + referralBonus b))%Q.
Proof.
  intros Hreq Hr b' w'. subst b' w'.
  rewrite (updateBalance_failure final b w w1 r Hreq Hr). simpl.
  pose proof (retryRequest_frame (update_request b w) "Balance update" 3 w)
    as (Hse & _).
  rewrite Hreq in Hse. simpl in Hse.
  repeat split; try assumption.
Qed.

Lemma failed_update_keeps_lastUpdate_witness :
  let b' := fst (updateBalance false Scenario.refused_bot Scenario.refused_world) in
  lastUpdate (miningState Scenario.refused_bot) = Some 1700000000120 /\
  lastUpdate (miningState b') = Some 1700000000320 /\
  currentEarnings b' = Some {| total := 0 |} /\
  update_request b' (sleep 30000 (snd (updateBalance false Scenario.refused_bot Scenario.refused_world)))
  = UpdateBalance "0x7e5f4552091a69125d5dfcb7b8c2659029395bdf" (4543590 # 20000000).
Proof.
  pose proof (failed_update_keeps_lastUpdate false
                Scenario.refused_bot Scenario.refused_world
                (snd (retryRequest
                        (api_call (update_request Scenario.refused_bot Scenario.refused_world))
                        "Balance update" 3 Scenario.refused_world))
                (JS.Normal (Some Scenario.refused))
                eq_refl eq_refl) as (_ & H2 & H3 & _ & H5).
  split; [reflexivity|]. split; [exact H2|]. split; [exact H3|].
  rewrite H5. vm_compute. reflexivity.
Defined.

(** ** Loading credentials *)

(** C8.  When the secrets file can be read, [loadPrivateKeysAndProxies]
    yields one entry per loaded secret, in order.  With [M > 0] loaded
    proxies the entry at index [i] carries the proxy at index [i mod M];
    when the proxy file is absent or yields no proxy, every entry carries
    no proxy, and the entries are produced all the same. *)
Theorem round_robin_proxies (w : World) (pkData : string) :
  files w !! JS.path_join (root w) FILE_PATHS.PRIVATE_KEYS = Some pkData ->
  let entries := fst (MiningCoordinator.loadPrivateKeysAndProxies w) in
  let secrets := MiningCoordinator.parse_lines pkData in
  let proxies :=
    match files w !! JS.path_join (root w) FILE_PATHS.PROXIES with
    | Some proxyData => MiningCoordinator.parse_lines proxyData
    | None => []
    end in
  length entries = length secrets /\
  ((0 < length proxies)%nat ->
   forall i pk, secrets !! i = Some pk ->
     exists p, proxies !! (i mod length proxies)%nat = Some p /\
               entries !! i = Some {| privateKey := pk; cred_proxy := Some p |}) /\
  (length proxies = 0%nat ->
   forall i pk, secrets !! i = Some pk ->
     entries !! i = Some {| privateKey := pk; cred_proxy := None |}).
Proof.
  intros Hpk entries secrets proxies.
  assert (Hentries : entries = MiningCoordinator.assign_proxies secrets proxies).
  { subst entries secrets proxies. unfold MiningCoordinator.loadPrivateKeysAndProxies.
    rewrite Hpk.
    destruct (files w !! JS.path_join (root w) FILE_PATHS.PROXIES) as [data|]; simpl.
    - destruct data as [|c data]; simpl; [rewrite parse_lines_empty|]; reflexivity.
    - reflexivity. }
  rewrite Hentries. unfold MiningCoordinator.assign_proxies.
  split; [apply length_imap|]. split.
  - intros HM i pk Hi.
    destruct (lookup_lt_is_Some_2 proxies (i mod length proxies)%nat) as [p Hp].
    { apply Nat.mod_upper_bound. lia. }
    exists p. split; [exact Hp|].
    rewrite list_lookup_imap, Hi. simpl.
    destruct (Nat.ltb_spec 0 (length proxies)) as [_|Hge]; [|lia].
    rewrite Hp. reflexivity.
  - intros HM i pk Hi. rewrite list_lookup_imap, Hi. simpl.
    rewrite HM. reflexivity.
Qed.

Lemma round_robin_proxies_witness :
  let w := Scenario.world []
             {[ "/app/pk.txt" := "k0" +:+ Scenario.newline +:+ "# spare" +:+ Scenario.newline
                                 +:+ " k1 " +:+ Scenario.newline +:+ "k2";
                "/app/proxies.txt" := "http://p0:80" +:+ Scenario.newline +:+ "http://p1:80"
                                      +:+ Scenario.newline ]} ∅ in
  fst (MiningCoordinator.loadPrivateKeysAndProxies w) !! 2%nat
  = Some {| privateKey := "k2"; cred_proxy := Some "http://p0:80" |}
  /\ length (fst (MiningCoordinator.loadPrivateKeysAndProxies (Scenario.world [] Scenario.two_keys ∅)))
     = 2%nat
  /\ fst (MiningCoordinator.loadPrivateKeysAndProxies (Scenario.world [] Scenario.two_keys ∅)) !! 1%nat
     = Some {| privateKey := Scenario.key2; cred_proxy := None |}.
Proof.
  intros w. split; [|split].
  - destruct (round_robin_proxies w _ eq_refl) as (_ & H & _).
    destruct (H ltac:(vm_compute; lia) 2%nat "k2" eq_refl) as (p & Hp & He).
    vm_compute in Hp. injection Hp as <-. exact He.
  - destruct (round_robin_proxies (Scenario.world [] Scenario.two_keys ∅) _ eq_refl)
      as (H & _). exact H.
  - destruct (round_robin_proxies (Scenario.world [] Scenario.two_keys ∅) _ eq_refl)
      as (_ & _ & H).
    exact (H eq_refl 1%nat Scenario.key2 eq_refl).
Defined.

(** ** The session file *)

(** C9 fails as stated: for the checksummed address of key 1 the agent's
    identity is the lower-cased address, while the session file keeps the
    address as it was passed, so the file stem is not the identity. *)
Lemma session_file_stem_counterexample :
  wallet Scenario.fresh_bot = "0x7e5f4552091a69125d5dfcb7b8c2659029395bdf" /\
  sessionFile Scenario.fresh_bot
  = "/app/session/0x7E5F4552091A69125d5DfCb7b8C2659029395Bdf.json" /\
  sessionFile Scenario.fresh_bot
  <> "/app/session/" +:+ wallet Scenario.fresh_bot +:+ ".json".
Proof.
  split; [reflexivity|]. split; [reflexivity|].
  vm_compute. discriminate.
Qed.

(** C9, amended.  The session file of an agent is
    [<root>/session/<address>.json] where [<address>] is the address string
    the agent was constructed with, letter case kept; it is the path
    [loadSession] looks up and the path [saveSession] writes.  The identity
    sent to the remote service is that address lower-cased, so the file stem
    is the identity exactly when the address has no upper-case letter. *)
Theorem session_file_location (address : string) (index : nat) (p : option string)
    (w : World) :
  let b := constructor address index p w in
  wallet b = JS.toLowerCase address /\
  sessionFile b = root w +:+ "/session/" +:+ address +:+ ".json" /\
  (forall w', fst (fst (loadSession b w')) = true <->
              exists record, sessions w' !! sessionFile b = Some (Doc record)) /\
  (forall w', exists ok,
     trace (saveSession b w') = trace w' ++ [EvWrite (sessionFile b) (session_record b) ok]) /\
  (sessionFile b = root w +:+ "/session/" +:+ wallet b +:+ ".json"
   <-> JS.toLowerCase address = address).
Proof.
  intros b.
  assert (Hfile : sessionFile b = root w +:+ "/session/" +:+ address +:+ ".json").
  { subst b. unfold constructor, JS.path_join. simpl.
    rewrite !string_app_assoc. reflexivity. }
  split; [reflexivity|]. split; [exact Hfile|]. split; [|split].
  - intros w'. unfold loadSession.
    destruct (sessions w' !! sessionFile b) as [[record|]|]; simpl; split;
      try discriminate; eauto.
    + intros [record H]. discriminate.
    + intros [record H]. discriminate.
  - intros w'. exists (disk w' (written w')). apply saveSession_effect.
  - rewrite Hfile. change (wallet b) with (JS.toLowerCase address). split.
    + intros H. apply (inj (String.app (root w))) in H.
      apply (inj (String.app "/session/")) in H.
      symmetry. apply (string_app_cancel_r ".json"); [|exact H].
      symmetry. apply toLowerCase_length.
    + intros H. rewrite H. reflexivity.
Qed.

(** ** Shutdown *)




(** C5, at a failing input.  Two agents run; the session file of the first
    holds [earnings: null], so its [stop()] rejects with a TypeError while
    the second resolves to 6.  The handler's [try]/[catch] around the
    un-awaited call does not see the rejection: [Promise.all] rejects, no
    summary is printed, [totalPaid] stays 0 instead of [0 + 6], and the
    process exits with status 1. *)
Theorem shutdown_aborted_by_rejected_stop :
  let c := fst Scenario.null_earnings_started in
  let w := snd Scenario.null_earnings_started in
  let r := MiningCoordinator.stop_all (bots c) (console_log ShuttingDown w) in
  map currentEarnings (bots c) = [None; Some {| total := 5 |}] /\
  fst (fst r) = [JS.Rejected "TypeError"; JS.Resolved 6%Q] /\
  totalPaid (fst (MiningCoordinator.shutdown c w)) = 0%Q /\
  console_of (drop (length (trace w)) (trace (snd (MiningCoordinator.shutdown c w))))
  = [ShuttingDown; Stopping 1; Stopped 1; Stopping 2; Status 2 true 6; Stopped 2;
     ErrorDuringShutdown "TypeError"] /\
  exits_of (trace (snd (MiningCoordinator.shutdown c w))) = [1].
Proof. vm_compute. repeat split; reflexivity. Qed.

(** * Further properties of the code *)

(** ** What an agent leaves alone *)


Lemma agent_step_refl (path : string) (w : World) : agent_step path w w.
Proof.
  unfold agent_step. repeat split; try reflexivity; try lia.
  exists []. split; [by rewrite app_nil_r | constructor].
Qed.

Lemma agent_step_trans (path : string) (w1 w2 w3 : World) :
  agent_step path w1 w2 -> agent_step path w2 w3 -> agent_step path w1 w3.
Proof.
  intros (Hr & Hf & Hs & Hd & Hse & Hn & Hw & evs & Ht & Ho)
         (Hr' & Hf' & Hs' & Hd' & Hse' & Hn' & Hw' & evs' & Ht' & Ho').
  unfold agent_step. repeat split; try congruence; try lia.
  - intros p Hp. rewrite Hse', Hse; auto.
  - exists (evs ++ evs'). split; [by rewrite Ht', Ht, app_assoc | by apply Forall_app].
Qed.

Lemma agent_step_emit (path : string) (e : event) (w : World) :
  own_event path e -> agent_step path w (emit e w).
Proof.
  intros He. unfold agent_step, emit. simpl. repeat split; try reflexivity; try lia.
  exists [e]. split; [reflexivity | by constructor].
Qed.

Lemma agent_step_sleep (path : string) (ms : Z) (w : World) :
  agent_step path w (sleep ms w).
Proof.
  unfold agent_step, sleep, emit. simpl. repeat split; try reflexivity; try lia.
  exists [EvSleep ms]. split; [reflexivity | by repeat constructor].
Qed.

Lemma agent_step_api_call (path : string) (req : Request) (w : World) :
  agent_step path w (snd (api_call req w)).
Proof.
  unfold agent_step, api_call, emit.
  destruct (service w (sent w)); simpl; repeat split; try reflexivity; try lia;
    (exists [EvRequest req]; split; [reflexivity | by repeat constructor]).
Qed.

Lemma agent_step_retry_loop (path : string) (req : Request) (N : nat) :
  forall (remaining i : nat) (w : World),
    agent_step path w (snd (retryRequest_loop (api_call req) N i remaining w)).
Proof.
  induction remaining as [|r IH]; intros i w; simpl; [apply agent_step_refl|].
  pose proof (agent_step_api_call path req w) as Hcall.
  destruct (api_call req w) as [[a|msg] w1]; simpl in *; [exact Hcall|].
  destruct (Nat.eqb i (N - 1)); simpl; [exact Hcall|].
  eapply agent_step_trans; [exact Hcall|].
  eapply agent_step_trans; [apply agent_step_sleep | apply IH].
Qed.

Lemma agent_step_retryRequest (path : string) (req : Request) (name : string) (N : nat)
    (w : World) :
  agent_step path w (snd (retryRequest (api_call req) name N w)).
Proof. apply agent_step_retry_loop. Qed.

Lemma agent_step_saveSession (b : Bot) (w : World) :
  agent_step (sessionFile b) w (saveSession b w).
Proof.
  unfold agent_step, saveSession, writeFile, emit. simpl.
  repeat split; try reflexivity; try lia.
  - intros p Hp. destruct (disk w (written w)); [|reflexivity].
    apply lookup_insert_ne. congruence.
  - eexists. split; [reflexivity|]. repeat constructor.
Qed.

Lemma same_identity_refl (b : Bot) : same_identity b b.
Proof. unfold same_identity. repeat split; reflexivity. Qed.

Lemma same_identity_trans (b1 b2 b3 : Bot) :
  same_identity b1 b2 -> same_identity b2 b3 -> same_identity b1 b3.
Proof. unfold same_identity. intuition congruence. Qed.

Lemma same_identity_file (b b' : Bot) :
  same_identity b b' -> sessionFile b' = sessionFile b.
Proof. intros H. apply H. Qed.

Lemma same_identity_set (b b' : Bot) :
  same_identity b b' ->
  (forall v, same_identity b (set_isActive v b')) /\
  (forall v, same_identity b (set_startTime v b')) /\
  (forall v, same_identity b (set_lastUpdate v b')) /\
  (forall v, same_identity b (set_currentEarnings v b')) /\
  (forall v, same_identity b (set_referralBonus v b')).
Proof. unfold same_identity. intros H. repeat split; simpl; apply H. Qed.

(** Discharge [same_identity b (set_.. (set_.. b'))] from [same_identity b b']. *)
Ltac same_identity :=
  repeat first
    [ assumption
    | apply same_identity_refl
    | apply same_identity_set ].

Lemma same_identity_wallet (b b' : Bot) : same_identity b b' -> wallet b' = wallet b.
Proof. intros H. apply H. Qed.

Lemma same_identity_summary (b b' : Bot) :
  same_identity b b' -> agent_summary b' = agent_summary b.
Proof.
  intros (Hw & Hi & Hp & _). unfold agent_summary. rewrite Hw, Hi, Hp. reflexivity.
Qed.

Lemma own_events_no_exit (path : string) (evs : list event) :
  Forall (own_event path) evs -> exits_of evs = [].
Proof.
  induction 1 as [|e evs He _ IH]; [reflexivity|].
  unfold exits_of in *. destruct e; simpl in *; try assumption. contradiction.
Qed.

Lemma agent_step_trace (path : string) (w w' : World) :
  agent_step path w w' ->
  exists evs, trace w' = trace w ++ evs /\ exits_of evs = [] /\ Forall (own_event path) evs.
Proof.
  intros (_ & _ & _ & _ & _ & _ & _ & evs & Ht & Ho).
  exists evs. split_and!; [exact Ht | exact (own_events_no_exit _ _ Ho) | exact Ho].
Qed.

Lemma agent_step_world (path : string) (w w' : World) :
  agent_step path w w' ->
  root w' = root w /\ files w' = files w /\ service w' = service w /\ disk w' = disk w /\
  (forall p, p <> path -> sessions w' !! p = sessions w !! p).
Proof. intros (H1 & H2 & H3 & H4 & H5 & _). split_and!; assumption. Qed.

(** The proofs below keep [same_identity] and [agent_step] folded. *)
#[local] Opaque same_identity agent_step.

(** Everything one balance update leaves as it was. *)
Lemma updateBalance_keeps (final : bool) (b : Bot) (w : World) :
  let b' := fst (updateBalance final b w) in
  let w' := snd (updateBalance final b w) in
  same_identity b b' /\ agent_step (sessionFile b) w w' /\
  isActive (miningState b') = isActive (miningState b) /\
  startTime (miningState b') = startTime (miningState b) /\
  referralBonus b' = referralBonus b /\
  lastUpdate (miningState b') = Some (clock w) /\
  (is_Some (currentEarnings b') <-> is_Some (currentEarnings b)).
Proof.
  rewrite updateBalance_unfold.
  pose proof (agent_step_retryRequest (sessionFile b) (update_request b w)
                "Balance update" 3 w) as Hstep.
  remember (update_request b w) as req eqn:Hreq. clear Hreq.
  destruct (retryRequest (api_call req) "Balance update" 3 w) as [[[data|]|msg] w1];
    cbn [fst snd] in *; cbv zeta.
  - destruct (success data).
    + destruct (currentEarnings b) as [e|] eqn:He.
      * cbn [fst snd]. split_and!; try reflexivity.
        -- same_identity.
        -- eapply agent_step_trans; [exact Hstep|].
           eapply agent_step_trans.
           ++ apply (agent_step_saveSession
                       (set_currentEarnings (Some {| total := balance data |})
                          (set_lastUpdate (Some (clock w)) b))).
           ++ apply agent_step_emit. exact I.
        -- simpl. split; eauto.
      * cbn [fst snd]. split_and!; try reflexivity; try exact Hstep; try same_identity;
          simpl; rewrite He; auto.
    + cbn [fst snd]. split_and!; try reflexivity; try exact Hstep; try same_identity; simpl; auto.
  - split_and!; try reflexivity; try exact Hstep; try same_identity; simpl; auto.
  - split_and!; try reflexivity; try exact Hstep; try same_identity; simpl; auto.
Qed.

(** The same for a run of the report loop. *)
Lemma startMiningLoop_keeps :
  forall (cycles : nat) (b : Bot) (w : World),
    let b' := fst (startMiningLoop cycles b w) in
    let w' := snd (startMiningLoop cycles b w) in
    same_identity b b' /\ agent_step (sessionFile b) w w' /\
    isActive (miningState b') = isActive (miningState b) /\
    startTime (miningState b') = startTime (miningState b) /\
    referralBonus b' = referralBonus b /\
    (is_Some (currentEarnings b') <-> is_Some (currentEarnings b)).
Proof.
  induction cycles as [|n IH]; intros b w; cbn [startMiningLoop].
  - cbn [fst snd]. split_and!; try reflexivity; auto using agent_step_refl, same_identity_refl.
  - destruct (isActive (miningState b)) eqn:Hact.
    + pose proof (updateBalance_keeps false b w) as (Hid & Hstep & Ha & Hst & Hrb & _ & He).
      destruct (updateBalance false b w) as [b1 w1]. cbn [fst snd] in *.
      specialize (IH b1 (sleep MINING_CONFIG.UPDATE_INTERVAL w1)).
      destruct IH as (Hid' & Hstep' & Ha' & Hst' & Hrb' & He').
      assert (Hfile : sessionFile b1 = sessionFile b) by (apply same_identity_file, Hid).
      rewrite Hfile in Hstep'.
      split_and!; try congruence.
      * apply (same_identity_trans _ _ _ Hid Hid').
      * eapply agent_step_trans; [exact Hstep|].
        eapply agent_step_trans; [apply agent_step_sleep | exact Hstep'].
      * split; intros H; [apply He, He', H | apply He', He, H].
    + cbn [fst snd]. split_and!; try reflexivity; auto using agent_step_refl, same_identity_refl.
Qed.

Lemma loadSession_keeps (b : Bot) (w : World) :
  let b' := snd (fst (loadSession b w)) in
  let w' := snd (loadSession b w) in
  same_identity b b' /\ agent_step (sessionFile b) w w' /\
  written w' = written w /\ sessions w' = sessions w /\ sent w' = sent w /\
  isActive (miningState b') = isActive (miningState b) /\
  lastUpdate (miningState b') = lastUpdate (miningState b).
Proof.
  unfold loadSession.
  destruct (sessions w !! sessionFile b) as [[session|]|]; cbn [fst snd];
    split_and!; try reflexivity; auto using agent_step_refl, same_identity_refl.
  - same_identity.
  - apply agent_step_emit. exact I.
Qed.

(** [initialize], whatever the registration check answers. *)
Lemma initialize_keeps (cycles : nat) (b : Bot) (w : World) :
  let b' := fst (initialize cycles b w) in
  let w' := snd (initialize cycles b w) in
  same_identity b b' /\ agent_step (sessionFile b) w w'.
Proof.
  unfold initialize.
  pose proof (agent_step_retryRequest (sessionFile b) (CheckRegistration (wallet b))
                "Registration check" 3 w) as Hstep.
  assert (Hfail : same_identity b (set_isActive false b)) by same_identity.
  destruct (retryRequest (api_call (CheckRegistration (wallet b))) "Registration check" 3 w)
    as [[[data|]|msg] w1]; cbn [fst snd] in *;
    try (split; [apply Hfail | exact Hstep]).
  destruct (isRegistered data); [|split; [apply Hfail | exact Hstep]].
  pose proof (loadSession_keeps b w1) as (Hid & Hstep1 & _).
  destruct (loadSession b w1) as [[hasSession b1] w2]. cbn [fst snd] in *.
  match goal with
  | |- context [startMiningLoop cycles ?bb ?ww] =>
      pose proof (startMiningLoop_keeps cycles bb ww) as (Hid' & Hstep' & _);
      assert (Hidb : same_identity b bb)
        by (destruct hasSession; same_identity);
      assert (Hw : agent_step (sessionFile b) w2 ww)
        by (destruct (proxy b);
            [eapply agent_step_trans|]; apply agent_step_emit; exact I)
  end.
  rewrite (same_identity_file _ _ Hidb) in Hstep'. split.
  - apply (same_identity_trans _ _ _ Hidb Hid').
  - eapply agent_step_trans; [exact Hstep|].
    eapply agent_step_trans; [exact Hstep1|].
    eapply agent_step_trans; [exact Hw | exact Hstep'].
Qed.

(** [stop]: what it keeps, what it returns, and its last two events. *)
Lemma stop_keeps (b : Bot) (w : World) :
  let p := fst (fst (stop b w)) in
  let b' := snd (fst (stop b w)) in
  let w' := snd (stop b w) in
  same_identity b b' /\ agent_step (sessionFile b) w w' /\
  isActive (miningState b') = false /\
  startTime (miningState b') = startTime (miningState b) /\
  referralBonus b' = referralBonus b /\
  (is_Some (currentEarnings b') <-> is_Some (currentEarnings b)) /\
  p = match currentEarnings b' with
      | Some e => JS.Resolved (total e)
      | None => JS.Rejected "TypeError"
      end /\
  exists evs ok,
    trace w' = trace w ++ evs
               ++ [EvWrite (sessionFile b) (session_record b') ok;
                   EvConsole (Stopped (botIndex b))].
Proof.
  unfold stop.
  pose proof (updateBalance_keeps true (set_isActive false b)
                (console_log (Stopping (botIndex b)) w))
    as (Hid & Hstep & Hact & Hst & Hrb & _ & He).
  destruct (updateBalance true (set_isActive false b)
              (console_log (Stopping (botIndex b)) w)) as [b1 w1].
  cbn [fst snd] in *.
  assert (Hidb : same_identity b b1).
  { eapply same_identity_trans; [|exact Hid]. same_identity. }
  assert (Hfile : sessionFile b1 = sessionFile b) by (apply same_identity_file, Hidb).
  assert (Hall : agent_step (sessionFile b) w
                   (console_log (Stopped (botIndex b)) (saveSession b1 w1))).
  { eapply agent_step_trans;
      [apply (agent_step_emit _ (EvConsole (Stopping (botIndex b)))); exact I|].
    eapply agent_step_trans; [exact Hstep|].
    eapply agent_step_trans; [rewrite <- Hfile; apply agent_step_saveSession|].
    apply agent_step_emit. exact I. }
  assert (Htrace : exists evs ok,
             trace (console_log (Stopped (botIndex b)) (saveSession b1 w1))
             = trace w ++ evs ++ [EvWrite (sessionFile b) (session_record b1) ok;
                                  EvConsole (Stopped (botIndex b))]).
  { pose proof (saveSession_effect b1 w1) as (Ht & _).
    assert (Hpre : exists evs, trace w1 = trace w ++ evs).
    { destruct (agent_step_trace _ _ _ Hstep) as (evs & Hevs & _).
      exists (EvConsole (Stopping (botIndex b)) :: evs). rewrite Hevs. simpl.
      rewrite <- app_assoc. reflexivity. }
    destruct Hpre as [evs Hevs].
    exists evs, (disk w1 (written w1)). unfold console_log at 1, emit at 1. cbn [trace].
    rewrite Ht, Hevs, Hfile.
    rewrite <- !app_assoc. reflexivity. }
  destruct (currentEarnings b1) as [e|] eqn:Hce; cbn [fst snd];
    (split_and!; [exact Hidb | exact Hall | exact Hact | exact Hst | exact Hrb
                 | rewrite Hce; exact He | rewrite Hce; reflexivity | exact Htrace]).
Qed.

(** ** Requests and waits of the retry loop, whatever the service answers *)

Lemma retry_loop_bounds (req : Request) (N : nat) :
  forall (remaining i : nat) (w : World),
    (i + remaining = N)%nat ->
    let w' := snd (retryRequest_loop (api_call req) N i remaining w) in
    (sent w <= sent w' <= sent w + remaining)%nat /\
    ((0 < remaining)%nat -> (sent w < sent w')%nat) /\
    written w' = written w /\ sessions w' = sessions w /\
    exists evs,
      trace w' = trace w ++ evs /\
      requests_of evs = repeat req (sent w' - sent w) /\
      Forall (fun ms => 0 < ms < 2000 * Z.of_nat N) (sleeps_of evs).
Proof.
  induction remaining as [|r IH]; intros i w Hsum; simpl.
  - split_and!; try lia; try reflexivity.
    exists []. rewrite app_nil_r, Nat.sub_diag. split_and!; [reflexivity..|constructor].
  - pose proof (api_call_effect req w) as (Ht & Hn & Hsv & Hse & Hwr & _).
    destruct (api_call req w) as [[a|msg] w1]; simpl in *.
    + split_and!; try lia; try assumption.
      exists [EvRequest req]. rewrite Hn.
      replace (S (sent w) - sent w)%nat with 1%nat by lia.
      split_and!; [assumption|reflexivity|constructor].
    + destruct (Nat.eqb_spec i (N - 1)) as [Heq|Hne]; simpl.
      * split_and!; try lia; try assumption.
        exists [EvRequest req]. rewrite Hn.
        replace (S (sent w) - sent w)%nat with 1%nat by lia.
        split_and!; [assumption|reflexivity|constructor].
      * specialize (IH (S i) (sleep (2000 * (Z.of_nat i + 1)) w1) ltac:(lia)).
        destruct IH as (Hb & _ & Hwr' & Hse' & evs & Hevs & Hreqs & Hsl). simpl in *.
        split_and!; try lia; try congruence.
        exists ([EvRequest req; EvSleep (2000 * (Z.of_nat i + 1))] ++ evs).
        split_and!.
        -- rewrite Hevs, Ht, <- !app_assoc. reflexivity.
        -- change (requests_of ([EvRequest req; EvSleep (2000 * (Z.of_nat i + 1))] ++ evs))
             with (req :: requests_of evs).
           rewrite Hreqs.
           match goal with
           | |- _ = repeat req (?a - ?b)%nat =>
               replace (a - b)%nat with (S (a - sent w1)) by lia
           end.
           reflexivity.
        -- change (sleeps_of ([EvRequest req; EvSleep (2000 * (Z.of_nat i + 1))] ++ evs))
             with (2000 * (Z.of_nat i + 1) :: sleeps_of evs).
           constructor; [lia|exact Hsl].
Qed.

Lemma retryRequest_bounds (req : Request) (name : string) (N : nat) (w : World) :
  let w' := snd (retryRequest (api_call req) name N w) in
  (sent w <= sent w' <= sent w + N)%nat /\
  ((0 < N)%nat -> (sent w < sent w')%nat) /\
  written w' = written w /\ sessions w' = sessions w /\
  exists evs,
    trace w' = trace w ++ evs /\
    requests_of evs = repeat req (sent w' - sent w) /\
    Forall (fun ms => 0 < ms < 2000 * Z.of_nat N) (sleeps_of evs).
Proof. exact (retry_loop_bounds req N N 0 w eq_refl). Qed.

(** ** Persisting and resuming *)

Lemma stop_persists (b : Bot) (w : World) :
  (forall k, disk w k = true) ->
  let b' := snd (fst (stop b w)) in
  sessions (snd (stop b w)) !! sessionFile b = Some (Doc (session_record b')).
Proof.
  intros Hdisk. unfold stop.
  pose proof (updateBalance_keeps true (set_isActive false b)
                (console_log (Stopping (botIndex b)) w)) as (Hid & Hstep & _).
  destruct (updateBalance true (set_isActive false b)
              (console_log (Stopping (botIndex b)) w)) as [b1 w1].
  cbn [fst snd] in *.
  assert (Hfile : sessionFile b1 = sessionFile b).
  { apply same_identity_file in Hid. exact Hid. }
  assert (Hd : disk w1 = disk w).
  { destruct (agent_step_world _ _ _ Hstep) as (_ & _ & _ & Hd & _). exact Hd. }
  pose proof (saveSession_effect b1 w1) as (_ & _ & Hse & _).
  destruct (currentEarnings b1); cbn [fst snd]; unfold console_log, emit; cbn [sessions];
    rewrite Hse, Hd, Hdisk, Hfile; apply lookup_insert_eq.
Qed.

Lemma initialize_resumed (b : Bot) (w w1 : World) (data : Body) (record : SessionDoc) :
  retryRequest (api_call (CheckRegistration (wallet b))) "Registration check" 3 w
    = (JS.Normal (Some data), w1) ->
  isRegistered data = true ->
  sessions w !! sessionFile b = Some (Doc record) ->
  let b' := fst (initialize 0 b w) in
  isActive (miningState b') = true /\
  startTime (miningState b') = doc_startTime record /\
  currentEarnings b' = doc_earnings record /\
  referralBonus b' = doc_referralBonus record.
Proof.
  intros Hreq Hreg Hfile. unfold initialize. rewrite Hreq, Hreg.
  pose proof (retryRequest_frame (CheckRegistration (wallet b)) "Registration check" 3 w)
    as (Hse & _).
  rewrite Hreq in Hse. simpl in Hse. unfold loadSession. rewrite Hse, Hfile.
  destruct (proxy b); simpl; repeat split; reflexivity.
Qed.

(** ** Shutting down agents that all hold an earnings object *)

Lemma Promise_all_resolved {A : Type} (vs : list A) :
  MiningCoordinator.Promise_all (map JS.Resolved vs) = JS.Resolved vs.
Proof. induction vs as [|v vs IH]; simpl; [reflexivity|]. rewrite IH. reflexivity. Qed.

Lemma map_Some_inj {A : Type} :
  forall l1 l2 : list A, map Some l1 = map Some l2 -> l1 = l2.
Proof.
  induction l1 as [|x l1 IH]; intros [|y l2] H; simpl in H; try discriminate.
  - reflexivity.
  - injection H as -> H. f_equal. apply IH, H.
Qed.

Lemma exits_of_app (evs1 evs2 : list event) :
  exits_of (evs1 ++ evs2) = exits_of evs1 ++ exits_of evs2.
Proof. unfold exits_of. apply omap_app. Qed.

Lemma stop_all_resolved :
  forall (l : list Bot) (w : World),
    Forall (fun b => is_Some (currentEarnings b)) l ->
    let r := MiningCoordinator.stop_all l w in
    exists vs,
      fst (fst r) = map JS.Resolved vs /\
      map earnings_total (snd (fst r)) = map Some vs /\
      Forall (fun b => isActive (miningState b) = false) (snd (fst r)) /\
      map agent_summary (snd (fst r)) = map agent_summary l /\
      exists evs, trace (snd r) = trace w ++ evs /\ exits_of evs = [].
Proof.
  induction l as [|b l IH]; intros w Hall; simpl.
  - exists []. split_and!; try reflexivity; [constructor|].
    exists []. by rewrite app_nil_r.
  - inversion Hall as [|b0 l0 Hb Hl]; subst.
    unfold MiningCoordinator.stop_callback, MiningCoordinator.call_stop.
    pose proof (stop_keeps b w) as (Hid & Hstep & Hact & _ & _ & He & Hp & _).
    destruct (stop b w) as [[p b'] w1]. cbn [fst snd] in *.
    specialize (IH w1 Hl).
    destruct (MiningCoordinator.stop_all l w1) as [[ps l'] w2]. cbn [fst snd] in *.
    destruct IH as (vs & Hps & Htot & Hin & Hsum & evs2 & Ht2 & Hx2).
    destruct (proj2 He Hb) as [e' He'].
    destruct (agent_step_trace _ _ _ Hstep) as (evs1 & Ht1 & Hx1 & _).
    exists (total e' :: vs). rewrite Hp, He'. split_and!.
    + simpl. rewrite Hps. reflexivity.
    + simpl. unfold earnings_total at 1. rewrite He', Htot. reflexivity.
    + constructor; assumption.
    + simpl. rewrite Hsum, (same_identity_summary _ _ Hid). reflexivity.
    + exists (evs1 ++ evs2). rewrite Ht2, Ht1, app_assoc, exits_of_app, Hx1, Hx2.
      split; reflexivity.
Qed.

Lemma settled_in_time_resolved :
  forall (vs : list Q) (ds : list Z),
    exists vs', MiningCoordinator.settled_in_time (map JS.Resolved vs) ds = map JS.Resolved vs'.
Proof.
  unfold MiningCoordinator.settled_in_time.
  induction vs as [|v vs IH]; intros [|d ds]; simpl; try (exists []; reflexivity).
  destruct (IH ds) as [vs' Hvs']. destruct (MiningCoordinator.in_time d); simpl.
  - exists (v :: vs'). rewrite Hvs'. reflexivity.
  - exists vs'. exact Hvs'.
Qed.

Lemma not_in_time_Exists (ds : list Z) :
  Exists (fun d => MiningCoordinator.FORCE_EXIT_TIMEOUT <= d) ds ->
  forallb MiningCoordinator.in_time ds = false.
Proof.
  induction 1 as [d ds Hd|d ds _ IH]; simpl.
  - unfold MiningCoordinator.in_time. apply Z.ltb_ge in Hd. rewrite Hd. reflexivity.
  - rewrite IH. apply andb_false_r.
Qed.

(** [shutdown] when no [stop()] rejects and one of them outlasts the timer. *)
Lemma shutdown_timeout (c : Coordinator) (w : World) (vs : list Q) :
  isShuttingDown c = false ->
  fst (fst (MiningCoordinator.stop_all (bots c) (console_log ShuttingDown w)))
  = map JS.Resolved vs ->
  Exists (fun d => MiningCoordinator.FORCE_EXIT_TIMEOUT <= d)
    (MiningCoordinator.stop_durations (bots c) (console_log ShuttingDown w)) ->
  let r := MiningCoordinator.stop_all (bots c) (console_log ShuttingDown w) in
  MiningCoordinator.shutdown c w
  = ({| bots := snd (fst r); totalPaid := totalPaid c;
        isRunning := isRunning c; isShuttingDown := true |},
     process_exit 1 (console_log ShutdownTimeout (snd r))).
Proof.
  intros Hs Hps Hd r. subst r. unfold MiningCoordinator.shutdown. rewrite Hs.
  apply not_in_time_Exists in Hd.
  destruct (MiningCoordinator.stop_all (bots c) (console_log ShuttingDown w))
    as [[ps l'] w2]. cbn [fst snd] in *. subst ps.
  destruct (settled_in_time_resolved vs
              (MiningCoordinator.stop_durations (bots c) (console_log ShuttingDown w)))
    as [vs' ->].
  rewrite Promise_all_resolved, Hd. reflexivity.
Qed.

(** ** Building the agents *)

Lemma expected_agents_cons (ethers_address : string -> option string) (offset : nat)
    (item : Credential) (rest : list Credential) :
  expected_agents ethers_address offset (item :: rest)
  = match Utils.getWalletFromPrivateKey ethers_address (privateKey item) with
    | Some address =>
        if JS.truthy_string address
        then [((offset + 1)%nat, JS.toLowerCase address, cred_proxy item)]
        else []
    | None => []
    end ++ expected_agents ethers_address (S offset) rest.
Proof.
  unfold expected_agents. rewrite imap_cons. cbn [omap].
  replace (offset + 0 + 1)%nat with (offset + 1)%nat by lia.
  assert (Hext : forall f g : nat -> Credential -> option (nat * string * option string),
             (forall i x, f i x = g i x) -> imap f rest = imap g rest).
  { intros f g H. apply imap_ext. intros i x _. apply H. }
  rewrite (Hext _ (fun i item0 =>
             match Utils.getWalletFromPrivateKey ethers_address (privateKey item0) with
             | Some address =>
                 if JS.truthy_string address
                 then Some ((S offset + i + 1)%nat, JS.toLowerCase address, cred_proxy item0)
                 else None
             | None => None
             end)).
  - destruct (Utils.getWalletFromPrivateKey ethers_address (privateKey item)) as [a|];
      [destruct (JS.truthy_string a)|]; reflexivity.
  - intros i x. simpl.
    destruct (Utils.getWalletFromPrivateKey ethers_address (privateKey x)) as [a|];
      [|reflexivity].
    destruct (JS.truthy_string a); [|reflexivity].
    do 3 f_equal. lia.
Qed.

Lemma start_bots_summary (ethers_address : string -> option string) (cycles : nat) :
  forall (items : list Credential) (i : nat) (acc : list Bot) (w : World),
    let r := MiningCoordinator.start_bots ethers_address cycles items i acc w in
    map agent_summary (fst r)
    = map agent_summary acc ++ expected_agents ethers_address i items /\
    exists evs, trace (snd r) = trace w ++ evs /\ exits_of evs = [].
Proof.
  induction items as [|item rest IH]; intros i acc w; cbn [MiningCoordinator.start_bots].
  - cbn [fst snd]. split; [by rewrite app_nil_r|]. exists []. by rewrite app_nil_r.
  - rewrite expected_agents_cons.
    destruct (Utils.getWalletFromPrivateKey ethers_address (privateKey item)) as [a|].
    + destruct (JS.truthy_string a).
      * pose proof (initialize_keeps cycles
                      (KaleidoMiningBot.constructor a (i + 1) (cred_proxy item) w) w)
          as (Hid & Hstep).
        destruct (initialize cycles
                    (KaleidoMiningBot.constructor a (i + 1) (cred_proxy item) w) w)
          as [bot' w'].
        cbn [fst snd] in *.
        destruct (IH (S i) (acc ++ [bot']) w') as (Hsum & evs2 & Ht2 & Hx2).
        destruct (agent_step_trace _ _ _ Hstep) as (evs1 & Ht1 & Hx1 & _).
        split.
        -- rewrite Hsum, map_app, <- app_assoc. simpl.
           rewrite (same_identity_summary _ _ Hid). reflexivity.
        -- exists (evs1 ++ evs2). rewrite Ht2, Ht1, app_assoc, exits_of_app, Hx1, Hx2.
           split; reflexivity.
      * destruct (IH (S i) acc (console_log (InvalidKey (i + 1)) w))
          as (Hsum & evs2 & Ht2 & Hx2).
        split; [exact Hsum|].
        exists (EvConsole (InvalidKey (i + 1)) :: evs2). rewrite Ht2. simpl.
        rewrite <- app_assoc. split; [reflexivity | exact Hx2].
    + destruct (IH (S i) acc (console_log (InvalidKey (i + 1)) w))
        as (Hsum & evs2 & Ht2 & Hx2).
      split; [exact Hsum|].
      exists (EvConsole (InvalidKey (i + 1)) :: evs2). rewrite Ht2. simpl.
      rewrite <- app_assoc. split; [reflexivity | exact Hx2].
Qed.

(** ** Counting requests and waits *)

Lemma requests_of_app (evs1 evs2 : list event) :
  requests_of (evs1 ++ evs2) = requests_of evs1 ++ requests_of evs2.
Proof. unfold requests_of. apply omap_app. Qed.

Lemma sleeps_of_app (evs1 evs2 : list event) :
  sleeps_of (evs1 ++ evs2) = sleeps_of evs1 ++ sleeps_of evs2.
Proof. unfold sleeps_of. apply omap_app. Qed.

Lemma count_sleeps_app (ms : Z) (evs1 evs2 : list event) :
  count_sleeps ms (evs1 ++ evs2) = (count_sleeps ms evs1 + count_sleeps ms evs2)%nat.
Proof.
  unfold count_sleeps. rewrite sleeps_of_app, List.filter_app, length_app. reflexivity.
Qed.

Lemma count_short_sleeps (ms : Z) (evs : list event) :
  Forall (fun x => 0 < x < ms) (sleeps_of evs) -> count_sleeps ms evs = 0%nat.
Proof.
  unfold count_sleeps. induction 1 as [|x l Hx _ IH]; [reflexivity|].
  simpl. destruct (Z.eqb_spec x ms) as [->|_]; [lia | exact IH].
Qed.

(** One balance update: between one and three requests, all of them
    reports for the agent's wallet, and no wait of a whole interval. *)
Lemma updateBalance_budget (final : bool) (b : Bot) (w : World) :
  let w' := snd (updateBalance final b w) in
  (sent w < sent w' <= sent w + 3)%nat /\
  exists evs,
    trace w' = trace w ++ evs /\
    requests_of evs = repeat (update_request b w) (sent w' - sent w) /\
    count_sleeps MINING_CONFIG.UPDATE_INTERVAL evs = 0%nat.
Proof.
  rewrite updateBalance_unfold.
  pose proof (retryRequest_bounds (update_request b w) "Balance update" 3 w)
    as (Hb & Hpos & _ & _ & evs & Ht & Hreqs & Hsl).
  specialize (Hpos ltac:(lia)).
  assert (Hcount : count_sleeps MINING_CONFIG.UPDATE_INTERVAL evs = 0%nat).
  { apply count_short_sleeps. eapply Forall_impl; [exact Hsl|].
    intros x Hx. unfold MINING_CONFIG.UPDATE_INTERVAL. simpl in Hx. lia. }
  remember (update_request b w) as req eqn:Hreq. clear Hreq.
  destruct (retryRequest (api_call req) "Balance update" 3 w) as [[[data|]|msg] w1];
    cbn [fst snd] in *; cbv zeta;
    try (split; [lia|]; exists evs; split_and!; assumption).
  destruct (success data);
    [|cbn [fst snd]; split; [lia|]; exists evs; split_and!; assumption].
  destruct (currentEarnings b);
    [|cbn [fst snd]; split; [lia|]; exists evs; split_and!; assumption].
  cbn [fst snd].
  match goal with
  | |- context [saveSession ?bb w1] =>
      pose proof (saveSession_effect bb w1) as (Ht' & _ & _ & Hsent' & _)
  end.
  unfold console_log, emit. cbn [sent trace]. rewrite Hsent', Ht'.
  split; [lia|].
  eexists. rewrite Ht, <- !app_assoc. split; [reflexivity|].
  rewrite requests_of_app, count_sleeps_app, Hreqs, Hcount.
  split; [apply app_nil_r | reflexivity].
Qed.

(** ** Strings: reversal and trimming *)

Lemma rev_app_spec (s u : string) : String.rev_app s u = String.rev s +:+ u.
Proof.
  unfold String.rev. revert u.
  induction s as [|c s IH]; intros u; [reflexivity|].
  cbn [String.rev_app]. rewrite (IH (String c u)), (IH (String c EmptyString)).
  rewrite string_app_assoc. reflexivity.
Qed.

Lemma rev_app_app (s t u : string) :
  String.rev_app (s +:+ t) u = String.rev_app t (String.rev_app s u).
Proof.
  revert u. induction s as [|c s IH]; intros u; [reflexivity|].
  change (String c s +:+ t) with (String c (s +:+ t)). cbn [String.rev_app]. apply IH.
Qed.

Lemma rev_append (s t : string) : String.rev (s +:+ t) = String.rev t +:+ String.rev s.
Proof. unfold String.rev at 1. rewrite rev_app_app, rev_app_spec. reflexivity. Qed.

Lemma string_app_nil_r (s : string) : s +:+ "" = s.
Proof.
  induction s as [|c s IH]; [reflexivity|].
  change (String c (s +:+ "") = String c s). by rewrite IH.
Qed.

Lemma rev_involutive (s : string) : String.rev (String.rev s) = s.
Proof.
  induction s as [|c s IH]; [reflexivity|].
  change (String c s) with (String c "" +:+ s) at 1.
  rewrite rev_append, rev_append, IH. reflexivity.
Qed.

Lemma trimStart_length (s : string) : (String.length (JS.trimStart s) <= String.length s)%nat.
Proof.
  induction s as [|c s IH]; simpl; [lia|].
  destruct (Ascii.is_space c); simpl; lia.
Qed.

Lemma trimStart_idem (s : string) : JS.trimStart (JS.trimStart s) = JS.trimStart s.
Proof.
  induction s as [|c s IH]; [reflexivity|]. simpl.
  destruct (Ascii.is_space c) eqn:Hc; [exact IH|]. simpl. rewrite Hc. reflexivity.
Qed.

Lemma trimStart_split (s : string) : exists ws, s = ws +:+ JS.trimStart s.
Proof.
  induction s as [|c s [ws IH]]; [exists ""; reflexivity|]. simpl.
  destruct (Ascii.is_space c).
  - exists (String c ws). change (String c s = String c (ws +:+ JS.trimStart s)).
    by rewrite <- IH.
  - exists "". reflexivity.
Qed.

Lemma clean_start_prefix (x y : string) : clean_start (x +:+ y) -> clean_start x.
Proof.
  unfold clean_start. destruct x as [|c x]; [reflexivity|].
  change (String c x +:+ y) with (String c (x +:+ y)). simpl.
  destruct (Ascii.is_space c); [|reflexivity].
  intros H. pose proof (trimStart_length (x +:+ y)) as Hlen.
  rewrite H in Hlen. simpl in Hlen. lia.
Qed.

Lemma trim_clean (s : string) :
  clean_start (JS.trim s) /\ clean_start (String.rev (JS.trim s)).
Proof.
  unfold JS.trim.
  set (a := JS.trimStart s). set (b := JS.trimStart (String.rev a)).
  split.
  - destruct (trimStart_split (String.rev a)) as [ws Hws]. fold b in Hws.
    assert (Ha : a = String.rev b +:+ String.rev ws).
    { rewrite <- rev_append, <- Hws, rev_involutive. reflexivity. }
    apply (clean_start_prefix _ (String.rev ws)). rewrite <- Ha.
    unfold clean_start, a. apply trimStart_idem.
  - rewrite rev_involutive. unfold clean_start, b. apply trimStart_idem.
Qed.

Lemma trim_idem (s : string) : JS.trim (JS.trim s) = JS.trim s.
Proof.
  destruct (trim_clean s) as [H1 H2]. unfold clean_start in *.
  unfold JS.trim at 1. rewrite H1, H2. apply rev_involutive.
Qed.

(** ** Identity and ownership *)

(** X1.  Nothing an agent does after its construction changes its wallet
    identity, its index, its proxy, its session directory and file name, or
    its simulation parameters. *)
Theorem agent_identity_is_immutable (cycles : nat) (final : bool) (b : Bot) (w : World) :
  same_identity b (fst (initialize cycles b w)) /\
  same_identity b (fst (updateBalance final b w)) /\
  same_identity b (fst (startMiningLoop cycles b w)) /\
  same_identity b (snd (fst (stop b w))).
Proof.
  split_and!.
  - apply initialize_keeps.
  - apply updateBalance_keeps.
  - apply startMiningLoop_keeps.
  - apply stop_keeps.
Qed.

(** X2.  Initialising, reporting and stopping an agent leave the text
    files, the remote service's behaviour and every session file but the
    agent's own as they were, write no file but the agent's session file,
    and never end the process. *)
Theorem agent_touches_only_its_session_file (cycles : nat) (final : bool) (b : Bot)
    (w : World) :
  agent_step (sessionFile b) w (snd (initialize cycles b w)) /\
  agent_step (sessionFile b) w (snd (updateBalance final b w)) /\
  agent_step (sessionFile b) w (snd (startMiningLoop cycles b w)) /\
  agent_step (sessionFile b) w (snd (stop b w)).
Proof.
  split_and!.
  - apply initialize_keeps.
  - apply updateBalance_keeps.
  - apply startMiningLoop_keeps.
  - apply stop_keeps.
Qed.

(** X3.  [initialize] itself never writes a session file: until the first
    successful report the session store is as the agent found it. *)
Theorem initialize_writes_nothing (b : Bot) (w : World) :
  written (snd (initialize 0 b w)) = written w /\
  sessions (snd (initialize 0 b w)) = sessions w.
Proof.
  unfold initialize.
  pose proof (retryRequest_frame (CheckRegistration (wallet b)) "Registration check" 3 w)
    as (Hse & Hwr & _).
  destruct (retryRequest (api_call (CheckRegistration (wallet b))) "Registration check" 3 w)
    as [[[data|]|msg] w1]; cbn [fst snd] in *; try (split; assumption).
  destruct (isRegistered data); [|split; assumption].
  pose proof (loadSession_keeps b w1) as (_ & _ & Hwr1 & Hse1 & _).
  destruct (loadSession b w1) as [[hasSession b1] w2]. cbn [fst snd startMiningLoop] in *.
  destruct (proxy b); simpl; split; congruence.
Qed.

(** ** The retry policy, whatever the service answers *)

(** X4.  A call of [retryRequest] with budget [N] issues at most [N]
    requests (at least one when [N > 0]), all of them the given request,
    waits less than [2000 * N] ms each time it waits, and writes nothing. *)
Theorem retry_budget_is_never_exceeded (N : nat) (req : Request) (name : string)
    (w : World) :
  let w' := snd (retryRequest (api_call req) name N w) in
  (sent w <= sent w' <= sent w + N)%nat /\
  ((0 < N)%nat -> (sent w < sent w')%nat) /\
  written w' = written w /\
  exists evs,
    trace w' = trace w ++ evs /\
    requests_of evs = repeat req (sent w' - sent w) /\
    Forall (fun ms => 0 < ms < 2000 * Z.of_nat N) (sleeps_of evs).
Proof.
  pose proof (retryRequest_bounds req name N w) as (H1 & H2 & H3 & _ & H4).
  destruct H1. cbv zeta. split_and!; assumption.
Qed.

(** ** Stopping *)

(** X5.  [stop] always leaves the agent inactive and always ends with a
    write of the agent's current record to its session file, whether the
    final report went through or not.  Its promise resolves to the agent's
    [earnings.total] when the agent holds an earnings object and rejects
    with a TypeError when [currentEarnings] is null. *)
Theorem stop_settles_with_final_total (b : Bot) (w : World) :
  let p := fst (fst (stop b w)) in
  let b' := snd (fst (stop b w)) in
  let w' := snd (stop b w) in
  isActive (miningState b') = false /\
  (exists evs ok,
     trace w' = trace w ++ evs
                ++ [EvWrite (sessionFile b) (session_record b') ok;
                    EvConsole (Stopped (botIndex b))]) /\
  match currentEarnings b with
  | Some _ => exists v, p = JS.Resolved v /\ earnings_total b' = Some v
  | None => p = JS.Rejected "TypeError" /\ currentEarnings b' = None
  end.
Proof.
  pose proof (stop_keeps b w) as (_ & _ & Hact & _ & _ & He & Hp & Htr).
  cbv zeta. split_and!; [exact Hact | exact Htr |].
  rewrite Hp. unfold earnings_total.
  destruct (currentEarnings b) as [e|].
  - destruct (proj2 He ltac:(eauto)) as [e' He']. rewrite He'. simpl. eauto.
  - destruct (currentEarnings (snd (fst (stop b w)))) as [e'|] eqn:He'; [|auto].
    destruct (proj1 He ltac:(eauto)) as [x Hx]. discriminate.
Qed.

(** X6.  The value [stop] returns for an agent holding an earnings object
    is the balance the service confirmed for the final report when that
    report is accepted, and otherwise (the request failed on every attempt,
    or the service answered [success = false]) the total the agent had
    before. *)
Theorem stop_returns_best_known_total (b : Bot) (w w1 : World) (e : Earnings)
    (r : JS.Completion (option Body)) :
  currentEarnings b = Some e ->
  retryRequest
    (api_call (update_request (set_isActive false b) (console_log (Stopping (botIndex b)) w)))
    "Balance update" 3 (console_log (Stopping (botIndex b)) w) = (r, w1) ->
  fst (fst (stop b w))
  = JS.Resolved match r with
                | JS.Normal (Some data) => if success data then balance data else total e
                | _ => total e
                end.
Proof.
  intros He Hreq. unfold stop.
  assert (Hdec : (exists data, r = JS.Normal (Some data) /\ success data = true) \/
                 match r with JS.Normal (Some data) => success data = false | _ => True end).
  { destruct r as [[data|]|msg]; auto. destruct (success data) eqn:Hs; eauto. }
  destruct Hdec as [(data & -> & Hok)|Hfail].
  - rewrite (updateBalance_success true (set_isActive false b) _ w1 data e Hreq Hok He).
    rewrite Hok. reflexivity.
  - rewrite (updateBalance_failure true (set_isActive false b) _ w1 r Hreq Hfail).
    cbn [fst snd]. simpl. rewrite He.
    destruct r as [[data|]|msg]; try reflexivity.
    rewrite Hfail. reflexivity.
Qed.

Lemma stop_returns_best_known_total_witness :
  fst (fst (stop Scenario.resumed_bot Scenario.resumed_world)) = JS.Resolved (26 # 5) /\
  fst (fst (stop Scenario.refused_bot Scenario.refused_world)) = JS.Resolved 0%Q /\
  fst (fst (stop Scenario.failing_bot Scenario.failing_now)) = JS.Resolved 0%Q.
Proof.
  split_and!.
  -
    pose proof (stop_returns_best_known_total Scenario.resumed_bot Scenario.resumed_world
                  (snd (retryRequest
                          (api_call (update_request (set_isActive false Scenario.resumed_bot)
                                       (console_log (Stopping (botIndex Scenario.resumed_bot)) Scenario.resumed_world)))
                          "Balance update" 3
                          (console_log (Stopping (botIndex Scenario.resumed_bot)) Scenario.resumed_world)))
                  {| total := 5 |} (JS.Normal (Some (Scenario.accepted (26 # 5))))) as H.
    specialize (H ltac:(vm_compute; reflexivity) ltac:(vm_compute; reflexivity)).
    vm_compute in H |- *. exact H.
  -
    pose proof (stop_returns_best_known_total Scenario.refused_bot Scenario.refused_world
                  (snd (retryRequest
                          (api_call (update_request (set_isActive false Scenario.refused_bot)
                                       (console_log (Stopping (botIndex Scenario.refused_bot)) Scenario.refused_world)))
                          "Balance update" 3
                          (console_log (Stopping (botIndex Scenario.refused_bot)) Scenario.refused_world)))
                  {| total := 0 |} (JS.Normal (Some Scenario.refused))) as H.
    specialize (H ltac:(vm_compute; reflexivity) ltac:(vm_compute; reflexivity)).
    vm_compute in H |- *. exact H.
  -
    pose proof (stop_returns_best_known_total Scenario.failing_bot Scenario.failing_now
                  (snd (retryRequest
                          (api_call (update_request (set_isActive false Scenario.failing_bot)
                                       (console_log (Stopping (botIndex Scenario.failing_bot)) Scenario.failing_now)))
                          "Balance update" 3
                          (console_log (Stopping (botIndex Scenario.failing_bot)) Scenario.failing_now)))
                  {| total := 0 |} (JS.Throw "Request failed with status code 502")) as H.
    specialize (H ltac:(vm_compute; reflexivity) ltac:(vm_compute; reflexivity)).
    vm_compute in H |- *. exact H.
Defined.

(** ** Persisting and resuming *)

(** X7.  What [saveSession] writes is what [loadSession] reads back: after
    a write that goes through, any agent with the same session file loads
    exactly the saved [startTime], [currentEarnings] and [referralBonus]. *)
Theorem saveSession_loadSession_round_trip (b b0 : Bot) (w : World) :
  sessionFile b0 = sessionFile b ->
  disk w (written w) = true ->
  let loaded := loadSession b0 (saveSession b w) in
  fst (fst loaded) = true /\
  startTime (miningState (snd (fst loaded))) = startTime (miningState b) /\
  currentEarnings (snd (fst loaded)) = currentEarnings b /\
  referralBonus (snd (fst loaded)) = referralBonus b.
Proof.
  intros Hfile Hdisk. cbv zeta. unfold loadSession.
  pose proof (saveSession_effect b w) as (_ & _ & Hse & _).
  rewrite Hse, Hdisk, Hfile, lookup_insert_eq. simpl. repeat split; reflexivity.
Qed.

Lemma saveSession_loadSession_round_trip_witness :
  let loaded := loadSession Scenario.fresh_bot
                  (saveSession Scenario.resumed_bot Scenario.resumed_world) in
  fst (fst loaded) = true /\
  currentEarnings (snd (fst loaded)) = Some {| total := 5 |} /\
  referralBonus (snd (fst loaded)) = 1 # 10.
Proof.
  destruct (saveSession_loadSession_round_trip Scenario.resumed_bot Scenario.fresh_bot
              Scenario.resumed_world eq_refl eq_refl) as (H1 & _ & H3 & H4).
  split_and!; [exact H1 | exact H3 | exact H4].
Defined.

(** X8.  A restart resumes: when an agent is stopped on a disk that accepts
    its writes, an agent constructed later for the same session file and
    initialised in a world where that file is as the stopped agent left it,
    with a successful registration check, starts with the [startTime],
    [currentEarnings] and [referralBonus] the stopped agent ended with,
    whatever the check reports. *)
Theorem restart_resumes_stopped_session (b fresh : Bot) (w wr wr1 : World) (data : Body) :
  (forall k, disk w k = true) ->
  sessionFile fresh = sessionFile b ->
  sessions wr !! sessionFile b = sessions (snd (stop b w)) !! sessionFile b ->
  retryRequest (api_call (CheckRegistration (wallet fresh))) "Registration check" 3 wr
    = (JS.Normal (Some data), wr1) ->
  isRegistered data = true ->
  let stopped := snd (fst (stop b w)) in
  let resumed := fst (initialize 0 fresh wr) in
  isActive (miningState resumed) = true /\
  startTime (miningState resumed) = startTime (miningState stopped) /\
  currentEarnings resumed = currentEarnings stopped /\
  referralBonus resumed = referralBonus stopped.
Proof.
  intros Hdisk Hfile Hstore Hreq Hreg.
  pose proof (stop_persists b w Hdisk) as Hsaved. cbv zeta in Hsaved.
  rewrite <- Hstore, <- Hfile in Hsaved.
  exact (initialize_resumed fresh wr wr1 data _ Hreq Hreg Hsaved).
Qed.

Lemma restart_resumes_stopped_session_witness :
  let resumed := fst (initialize 0 Scenario.fresh_bot Scenario2.restart_world) in
  isActive (miningState resumed) = true /\
  startTime (miningState resumed) = Some (inject_Z 1690000000000) /\
  currentEarnings resumed = Some {| total := 26 # 5 |} /\
  referralBonus resumed = 1 # 10.
Proof.
  pose proof (restart_resumes_stopped_session Scenario.resumed_bot Scenario.fresh_bot
                Scenario.resumed_world Scenario2.restart_world
                (snd (retryRequest (api_call (CheckRegistration (wallet Scenario.fresh_bot)))
                        "Registration check" 3 Scenario2.restart_world))
                (Scenario.registered (Some 0%Q) (Some 0%Q))) as H.
  specialize (H ltac:(intros k; vm_compute; reflexivity)
                ltac:(vm_compute; reflexivity) ltac:(vm_compute; reflexivity)
                ltac:(vm_compute; reflexivity) eq_refl).
  vm_compute in H |- *. exact H.
Defined.

(** X9.  A write that fails is swallowed without rolling anything back:
    after an accepted report on a disk that refuses the write, the agent
    holds the new total in memory while its session file is unchanged. *)
Theorem failed_write_keeps_new_total (final : bool) (b : Bot) (w w1 : World)
    (data : Body) (e : Earnings) :
  retryRequest (api_call (update_request b w)) "Balance update" 3 w
    = (JS.Normal (Some data), w1) ->
  success data = true ->
  currentEarnings b = Some e ->
  disk w (written w) = false ->
  let b' := fst (updateBalance final b w) in
  let w' := snd (updateBalance final b w) in
  earnings_total b' = Some (balance data) /\
  sessions w' = sessions w /\
  written w' = S (written w).
Proof.
  intros Hreq Hok He Hdisk. cbv zeta.
  rewrite (updateBalance_success final b w w1 data e Hreq Hok He). cbn [fst snd].
  pose proof (retryRequest_frame (update_request b w) "Balance update" 3 w)
    as (Hse & Hwr & Hd & _).
  rewrite Hreq in Hse, Hwr, Hd. cbn [snd] in Hse, Hwr, Hd.
  match goal with
  | |- context [saveSession ?bb w1] =>
      pose proof (saveSession_effect bb w1) as (_ & Hwr' & Hse' & _)
  end.
  unfold console_log, emit. cbn [sessions written].
  rewrite Hse', Hwr', Hd, Hwr, Hdisk. split_and!; [reflexivity | exact Hse | reflexivity].
Qed.

Lemma failed_write_keeps_new_total_witness :
  let w := Scenario2.on_broken_disk Scenario.resumed_world in
  earnings_total (fst (updateBalance false Scenario.resumed_bot w)) = Some (26 # 5) /\
  sessions (snd (updateBalance false Scenario.resumed_bot w)) !! Scenario.session_path1
  = Some (Doc Scenario.old_session).
Proof.
  intros w.
  destruct (failed_write_keeps_new_total false Scenario.resumed_bot w
              (snd (retryRequest (api_call (update_request Scenario.resumed_bot w))
                      "Balance update" 3 w))
              (Scenario.accepted (26 # 5)) {| total := 5 |}
              eq_refl eq_refl eq_refl eq_refl) as (H1 & H2 & _).
  split; [exact H1|]. rewrite H2. vm_compute. reflexivity.
Defined.

(** X10.  An agent whose [currentEarnings] is null (a session file with
    [earnings: null]) never records a balance: whatever the service answers
    a report, the assignment of the total throws inside [updateBalance]'s
    own [try], so only [lastUpdate] moves and no file is written. *)
Theorem update_with_null_earnings_records_nothing (final : bool) (b : Bot) (w : World) :
  currentEarnings b = None ->
  let b' := fst (updateBalance final b w) in
  let w' := snd (updateBalance final b w) in
  b' = set_lastUpdate (Some (clock w)) b /\
  w' = snd (retryRequest (api_call (update_request b w)) "Balance update" 3 w) /\
  written w' = written w /\ sessions w' = sessions w.
Proof.
  intros He. cbv zeta. rewrite updateBalance_unfold.
  pose proof (retryRequest_frame (update_request b w) "Balance update" 3 w)
    as (Hse & Hwr & _).
  destruct (retryRequest (api_call (update_request b w)) "Balance update" 3 w)
    as [[[data|]|msg] w1]; cbn [fst snd] in *; cbv zeta;
    try (split_and!; [reflexivity | reflexivity | assumption | assumption]).
  rewrite He. destruct (success data); cbn [fst snd];
    split_and!; try reflexivity; assumption.
Qed.

Lemma update_with_null_earnings_records_nothing_witness :
  currentEarnings (fst (updateBalance false Scenario2.null_bot Scenario2.null_now)) = None /\
  written (snd (updateBalance false Scenario2.null_bot Scenario2.null_now)) = 0%nat /\
  fst (retryRequest (api_call (update_request Scenario2.null_bot Scenario2.null_now))
         "Balance update" 3 Scenario2.null_now)
  = JS.Normal (Some (Scenario.accepted 9)).
Proof.
  destruct (update_with_null_earnings_records_nothing false
              Scenario2.null_bot Scenario2.null_now eq_refl) as (H1 & _ & H3 & _).
  split_and!; [rewrite H1; reflexivity | exact H3 | reflexivity].
Defined.

(** ** The coordinator *)

(** X11.  When every agent of the collection holds an earnings object and
    every agent's [stop()] takes less than the 30 s of the force-exit
    timer, the first [SIGINT] stops them all, leaves every agent inactive,
    sets [totalPaid] to the left-to-right sum of the agents' final totals,
    prints the summary with the size of the collection, and ends the
    process with status 0 and no other exit. *)
Theorem shutdown_sums_final_totals (c : Coordinator) (w : World) :
  isShuttingDown c = false ->
  Forall (fun b => is_Some (currentEarnings b)) (bots c) ->
  Forall (fun d => d < MiningCoordinator.FORCE_EXIT_TIMEOUT)
    (MiningCoordinator.stop_durations (bots c) (console_log ShuttingDown w)) ->
  let c' := fst (MiningCoordinator.shutdown c w) in
  let w' := snd (MiningCoordinator.shutdown c w) in
  exists vs,
    map earnings_total (bots c') = map Some vs /\
    totalPaid c' = fold_left Qplus vs 0%Q /\
    isShuttingDown c' = true /\
    map agent_summary (bots c') = map agent_summary (bots c) /\
    Forall (fun b => isActive (miningState b) = false) (bots c') /\
    exists evs,
      trace w' = trace w ++ evs
                 ++ [EvConsole (FinalSummary (length (bots c)) (totalPaid c')); EvExit 0] /\
      exits_of evs = [].
Proof.
  intros Hs Hall Hd.
  pose proof (stop_all_resolved (bots c) (console_log ShuttingDown w) Hall)
    as (vs & Hps & Htot & Hin & Hsum & evs & Ht & Hx).
  assert (Hres : MiningCoordinator.Promise_all
                   (fst (fst (MiningCoordinator.stop_all (bots c) (console_log ShuttingDown w))))
                 = JS.Resolved vs) by (rewrite Hps; apply Promise_all_resolved).
  cbv zeta. rewrite (shutdown_resolved c w vs Hs Hd Hres).
  cbn [fst snd bots totalPaid isShuttingDown].
  exists vs. split_and!; try assumption; try reflexivity.
  exists (EvConsole ShuttingDown :: evs). split; [|exact Hx].
  unfold process_exit, console_log at 1, emit. cbn [trace]. rewrite Ht.
  unfold console_log, emit. cbn [trace]. rewrite <- !app_assoc. reflexivity.
Qed.

Lemma shutdown_sums_final_totals_witness :
  let started := MiningCoordinator.start Scenario.ethers_address 0
                   MiningCoordinator.constructor
                   (Scenario.world [Respond 120 (Scenario.registered (Some 1%Q) None);
                                    Respond 120 (Scenario.registered (Some 5%Q) None);
                                    Respond 90 (Scenario.accepted 9);
                                    Respond 90 (Scenario.accepted 6)]
                      Scenario.two_keys ∅) in
  MiningCoordinator.stop_durations (bots (fst started))
    (console_log ShuttingDown (snd started)) = [90; 90] /\
  exists vs,
    vs = [9%Q; 6%Q] /\
    totalPaid (fst (MiningCoordinator.shutdown (fst started) (snd started)))
    = fold_left Qplus vs 0%Q.
Proof.
  intros started.
  assert (Hs : isShuttingDown (fst started) = false) by (vm_compute; reflexivity).
  assert (Hall : Forall (fun b => is_Some (currentEarnings b)) (bots (fst started))).
  { vm_compute. repeat constructor; eauto. }
  assert (Hd : MiningCoordinator.stop_durations (bots (fst started))
                 (console_log ShuttingDown (snd started)) = [90; 90])
    by (vm_compute; reflexivity).
  split; [exact Hd|].
  destruct (shutdown_sums_final_totals (fst started) (snd started) Hs Hall
              ltac:(rewrite Hd; repeat constructor))
    as (vs & Hvs & Htotal & _).
  exists vs. split; [|exact Htotal].
  symmetry. apply map_Some_inj. rewrite <- Hvs. vm_compute. reflexivity.
Defined.

(** X12.  A [SIGINT] that arrives while a shutdown is in progress stops
    nobody: the handler prints the warning and arms the forced exit,
    sends no request, writes no file and leaves the coordinator as it is;
    the [SIGINT] after that one runs the forced exit, which ends the
    process with status 1. *)
Theorem signal_during_shutdown_arms_forced_exit (c : Coordinator) (w : World) :
  isShuttingDown c = true ->
  MiningCoordinator.forced_exit_armed w = false ->
  let c2 := fst (MiningCoordinator.SIGINT c w) in
  let w2 := snd (MiningCoordinator.SIGINT c w) in
  let c3 := fst (MiningCoordinator.SIGINT c2 w2) in
  let w3 := snd (MiningCoordinator.SIGINT c2 w2) in
  c2 = c /\
  trace w2 = trace w ++ [EvConsole ShutdownInProgress; EvOnceSIGINT] /\
  sent w2 = sent w /\ written w2 = written w /\ sessions w2 = sessions w /\
  c3 = c /\
  trace w3 = trace w2 ++ [EvConsole ShutdownInProgress; EvOnceSIGINT;
                          EvConsole ForcedExit; EvExit 1] /\
  sent w3 = sent w /\ written w3 = written w /\ sessions w3 = sessions w.
Proof.
  intros Hs Harmed. cbv zeta.
  assert (H2 : MiningCoordinator.SIGINT c w
               = (c, emit EvOnceSIGINT (console_log ShutdownInProgress w))).
  { unfold MiningCoordinator.SIGINT, MiningCoordinator.shutdown. rewrite Hs, Harmed.
    reflexivity. }
  rewrite H2. cbn [fst snd].
  assert (H3 : MiningCoordinator.SIGINT c (emit EvOnceSIGINT (console_log ShutdownInProgress w))
               = (c, MiningCoordinator.forced_exit
                       (emit EvOnceSIGINT
                          (console_log ShutdownInProgress
                             (emit EvOnceSIGINT (console_log ShutdownInProgress w)))))).
  { unfold MiningCoordinator.SIGINT, MiningCoordinator.shutdown. rewrite Hs.
    unfold MiningCoordinator.forced_exit_armed. cbn [trace emit console_log].
    rewrite !existsb_app. cbn [existsb]. rewrite !orb_true_r. reflexivity. }
  rewrite H3. cbn [fst snd]. unfold MiningCoordinator.forced_exit, process_exit, console_log, emit.
  cbn [trace sent written sessions]. rewrite <- !app_assoc.
  split_and!; reflexivity.
Qed.

Lemma signal_during_shutdown_arms_forced_exit_witness :
  let c := Scenario2.shutting_down in
  let w := snd Scenario.unregistered_started in
  exits_of (trace (snd (MiningCoordinator.SIGINT c w))) = [] /\
  requests_of (trace (snd (MiningCoordinator.SIGINT c w))) = requests_of (trace w) /\
  exits_of (trace (snd (MiningCoordinator.SIGINT
                          (fst (MiningCoordinator.SIGINT c w))
                          (snd (MiningCoordinator.SIGINT c w))))) = [1].
Proof.
  intros c w.
  pose proof (signal_during_shutdown_arms_forced_exit c w
                ltac:(vm_compute; reflexivity) ltac:(vm_compute; reflexivity))
    as (_ & H2 & _ & _ & _ & _ & H3 & _).
  rewrite H3, H2. vm_compute. repeat split; reflexivity.
Defined.

(** X23.  When every agent holds an earnings object (so that no [stop()]
    rejects) and some agent's [stop()] takes 30 s or more, the force-exit
    timer ends the shutdown: [totalPaid] keeps its value and the process
    ends with the timeout line and status 1, its only exit. *)
Theorem shutdown_timeout_forces_exit (c : Coordinator) (w : World) :
  isShuttingDown c = false ->
  Forall (fun b => is_Some (currentEarnings b)) (bots c) ->
  Exists (fun d => MiningCoordinator.FORCE_EXIT_TIMEOUT <= d)
    (MiningCoordinator.stop_durations (bots c) (console_log ShuttingDown w)) ->
  let c' := fst (MiningCoordinator.shutdown c w) in
  let w' := snd (MiningCoordinator.shutdown c w) in
  totalPaid c' = totalPaid c /\
  isShuttingDown c' = true /\
  exists evs,
    trace w' = trace w ++ evs ++ [EvConsole ShutdownTimeout; EvExit 1] /\
    exits_of evs = [].
Proof.
  intros Hs Hall Hd.
  pose proof (stop_all_resolved (bots c) (console_log ShuttingDown w) Hall)
    as (vs & Hps & _ & _ & _ & evs & Ht & Hx).
  cbv zeta. rewrite (shutdown_timeout c w vs Hs Hps Hd).
  cbn [fst snd totalPaid isShuttingDown]. split_and!; try reflexivity.
  exists (EvConsole ShuttingDown :: evs). split; [|exact Hx].
  unfold process_exit, console_log at 1, emit. cbn [trace]. rewrite Ht.
  unfold console_log, emit. cbn [trace]. rewrite <- !app_assoc. reflexivity.
Qed.

Lemma shutdown_timeout_forces_exit_witness :
  let c := fst Scenario2.silent_started in
  let w := snd Scenario2.silent_started in
  MiningCoordinator.stop_durations (bots c) (console_log ShuttingDown w) = [36000] /\
  totalPaid (fst (MiningCoordinator.shutdown c w)) = 0%Q /\
  exits_of (trace (snd (MiningCoordinator.shutdown c w))) = [1] /\
  last (console_of (trace (snd (MiningCoordinator.shutdown c w)))) = Some ShutdownTimeout.
Proof.
  intros c w.
  assert (Hd : MiningCoordinator.stop_durations (bots c) (console_log ShuttingDown w)
               = [36000]) by (vm_compute; reflexivity).
  assert (Hall : Forall (fun b => is_Some (currentEarnings b)) (bots c)).
  { vm_compute. repeat constructor; eauto. }
  destruct (shutdown_timeout_forces_exit c w ltac:(vm_compute; reflexivity) Hall
              ltac:(rewrite Hd; left; vm_compute; discriminate))
    as (Htotal & _ & _).
  split; [exact Hd|]. split; [rewrite Htotal; vm_compute; reflexivity|].
  vm_compute. split; reflexivity.
Defined.

(** X13.  When no key is loaded (the secrets file cannot be read, or holds
    only blank and comment lines) [start] builds no agent, sends no
    request, touches no session file and ends the process with status 1. *)
Theorem start_without_keys_exits (ethers_address : string -> option string) (cycles : nat)
    (c : Coordinator) (w : World) :
  isRunning c = false ->
  match files w !! JS.path_join (root w) FILE_PATHS.PRIVATE_KEYS with
  | Some pkData => MiningCoordinator.parse_lines pkData = []
  | None => True
  end ->
  let c' := fst (MiningCoordinator.start ethers_address cycles c w) in
  let w' := snd (MiningCoordinator.start ethers_address cycles c w) in
  bots c' = bots c /\ isRunning c' = true /\
  sent w' = sent w /\ sessions w' = sessions w /\ written w' = written w /\
  exists evs,
    trace w' = trace w ++ evs ++ [EvConsole NoValidKeys; EvExit 1] /\
    requests_of evs = [] /\ exits_of evs = [].
Proof.
  intros Hrun Hkeys. cbv zeta.
  unfold MiningCoordinator.start, MiningCoordinator.loadPrivateKeysAndProxies.
  rewrite Hrun.
  destruct (files w !! JS.path_join (root w) FILE_PATHS.PRIVATE_KEYS) as [pkData|].
  - rewrite Hkeys.
    destruct (files w !! JS.path_join (root w) FILE_PATHS.PROXIES) as [proxyData|];
      cbn [fst snd length Nat.eqb MiningCoordinator.assign_proxies imap];
      unfold process_exit, console_log, emit; cbn [trace sent sessions written bots isRunning].
    + split_and!; try reflexivity. exists [].
      rewrite <- !app_assoc. split_and!; reflexivity.
    + split_and!; try reflexivity. exists [EvConsole NoProxiesFile].
      rewrite <- !app_assoc. split_and!; reflexivity.
  - cbn [fst snd length Nat.eqb];
      unfold process_exit, console_log, emit; cbn [trace sent sessions written bots isRunning].
    split_and!; try reflexivity.
    exists [EvConsole ErrorLoadingKeys]. rewrite <- !app_assoc.
    split_and!; reflexivity.
Qed.

Lemma start_without_keys_exits_witness :
  let w := Scenario.world [] {[ "/app/pk.txt" := "# no keys yet" +:+ Scenario.newline ]} ∅ in
  bots (fst (MiningCoordinator.start Scenario.ethers_address 0 MiningCoordinator.constructor w))
  = [] /\
  exits_of (trace (snd (MiningCoordinator.start Scenario.ethers_address 0
                          MiningCoordinator.constructor w))) = [1] /\
  exits_of (trace (snd (MiningCoordinator.start Scenario.ethers_address 0
                          MiningCoordinator.constructor (Scenario.world [] ∅ ∅)))) = [1].
Proof.
  intros w.
  destruct (start_without_keys_exits Scenario.ethers_address 0 MiningCoordinator.constructor
              w eq_refl ltac:(vm_compute; reflexivity)) as (H1 & _).
  destruct (start_without_keys_exits Scenario.ethers_address 0 MiningCoordinator.constructor
              (Scenario.world [] ∅ ∅) eq_refl ltac:(vm_compute; exact I))
    as (_ & _ & _ & _ & _ & evs & Ht & _ & Hx).
  split_and!; [exact H1 | vm_compute; reflexivity |].
  rewrite Ht, !exits_of_app, Hx. reflexivity.
Defined.

(** X14.  When at least one key is loaded, [start] builds exactly one
    agent per entry whose key resolves to a non-empty address, in the
    order of the entries; each agent carries the 1-based position of its
    entry in the loaded list, the lower-cased address and the entry's
    proxy.  Entries that do not resolve are skipped, and [start] does not
    end the process, even when no entry resolves. *)
Theorem start_builds_one_agent_per_resolvable_key
    (ethers_address : string -> option string) (cycles : nat) (c : Coordinator) (w : World) :
  isRunning c = false ->
  fst (MiningCoordinator.loadPrivateKeysAndProxies w) <> [] ->
  let entries := fst (MiningCoordinator.loadPrivateKeysAndProxies w) in
  let c' := fst (MiningCoordinator.start ethers_address cycles c w) in
  let w' := snd (MiningCoordinator.start ethers_address cycles c w) in
  map agent_summary (bots c') = expected_agents ethers_address 0 entries /\
  isRunning c' = true /\
  exists evs, trace w' = trace w ++ evs /\ exits_of evs = [].
Proof.
  intros Hrun Hne. cbv zeta. unfold MiningCoordinator.start. rewrite Hrun.
  assert (Hload : exists evs0,
             trace (snd (MiningCoordinator.loadPrivateKeysAndProxies w)) = trace w ++ evs0 /\
             exits_of evs0 = []).
  { unfold MiningCoordinator.loadPrivateKeysAndProxies.
    destruct (files w !! JS.path_join (root w) FILE_PATHS.PRIVATE_KEYS);
      [destruct (files w !! JS.path_join (root w) FILE_PATHS.PROXIES)|]; cbn [snd].
    - exists []. by rewrite app_nil_r.
    - exists [EvConsole NoProxiesFile]. split; reflexivity.
    - exists [EvConsole ErrorLoadingKeys]. split; reflexivity. }
  destruct (MiningCoordinator.loadPrivateKeysAndProxies w) as [entries w1].
  cbn [fst snd] in *. destruct Hload as (evs0 & Ht0 & Hx0).
  destruct entries as [|item rest]; [contradiction|].
  cbn [length Nat.eqb]. cbv zeta.
  match goal with |- context [if ?cond then _ else _] => destruct cond end;
    (match goal with
     | |- context [MiningCoordinator.start_bots _ _ _ _ _ ?ww] =>
         pose proof (start_bots_summary ethers_address cycles (item :: rest) 0 [] ww)
           as (Hsum & evs2 & Ht2 & Hx2)
     end;
     destruct (MiningCoordinator.start_bots _ _ _ _ _ _) as [bots' w4];
     cbn [fst snd bots isRunning MiningCoordinator.set_bots] in *;
     split_and!; [exact Hsum | reflexivity |];
     unfold console_log, emit in Ht2; cbn [trace] in Ht2;
     eexists; rewrite Ht2, Ht0, <- !app_assoc;
     split; [reflexivity|];
     rewrite !exits_of_app, Hx0, Hx2; reflexivity).
Qed.

Lemma start_builds_one_agent_per_resolvable_key_witness :
  map agent_summary
    (bots (fst (MiningCoordinator.start Scenario.ethers_address 0
                  MiningCoordinator.constructor
                  (Scenario.world [] three_entries ∅))))
  = [(1%nat, "0x7e5f4552091a69125d5dfcb7b8c2659029395bdf", None);
     (3%nat, "0x2b5ad5c4795c026514f8317c7a215e218dccd6cf", None)].
Proof.
  destruct (start_builds_one_agent_per_resolvable_key Scenario.ethers_address 0
              MiningCoordinator.constructor (Scenario.world [] three_entries ∅)
              eq_refl ltac:(vm_compute; discriminate)) as (H & _).
  rewrite H. vm_compute. reflexivity.
Defined.

(** X15.  [start] runs once: a second call, after any first call, builds
    nothing and only prints a warning. *)
Theorem start_twice_is_a_no_op (ethers_address : string -> option string)
    (cycles cycles' : nat) (c : Coordinator) (w : World) :
  isRunning c = false ->
  let c1 := fst (MiningCoordinator.start ethers_address cycles c w) in
  let w1 := snd (MiningCoordinator.start ethers_address cycles c w) in
  MiningCoordinator.start ethers_address cycles' c1 w1 = (c1, console_log AlreadyRunning w1).
Proof.
  intros Hrun. cbv zeta.
  assert (Hr : isRunning (fst (MiningCoordinator.start ethers_address cycles c w)) = true).
  { unfold MiningCoordinator.start. rewrite Hrun.
    destruct (MiningCoordinator.loadPrivateKeysAndProxies w) as [entries w0].
    destruct (length entries =? 0)%nat; [reflexivity|]. cbv zeta.
    destruct (MiningCoordinator.start_bots _ _ _ _ _ _). reflexivity. }
  destruct (MiningCoordinator.start ethers_address cycles c w) as [c1 w1].
  cbn [fst snd] in *. unfold MiningCoordinator.start. rewrite Hr. reflexivity.
Qed.

Lemma start_twice_is_a_no_op_witness :
  bots (fst (MiningCoordinator.start Scenario.ethers_address 5
               (fst Scenario.unregistered_started) (snd Scenario.unregistered_started)))
  = bots (fst Scenario.unregistered_started).
Proof.
  pose proof (start_twice_is_a_no_op Scenario.ethers_address 0 5
                MiningCoordinator.constructor Scenario.unregistered_world eq_refl) as H.
  cbv zeta in H. unfold Scenario.unregistered_started. rewrite H. reflexivity.
Defined.

(** ** The life of an agent *)

(** X16.  A failed registration check is terminal: the agent is left as
    constructed but inactive, nothing but registration checks (at most
    three) were sent, no session file was read into the agent or written,
    and the report loop then does nothing, however long it is given. *)
Theorem failed_registration_never_reports (cycles : nat) (b : Bot) (w w1 : World)
    (r : JS.Completion (option Body)) :
  retryRequest (api_call (CheckRegistration (wallet b))) "Registration check" 3 w = (r, w1) ->
  match r with JS.Normal (Some data) => isRegistered data = false | _ => True end ->
  let b' := fst (initialize cycles b w) in
  let w' := snd (initialize cycles b w) in
  b' = set_isActive false b /\
  written w' = written w /\ sessions w' = sessions w /\
  (sent w' <= sent w + 3)%nat /\
  (exists evs,
     trace w' = trace w ++ evs /\
     requests_of evs = repeat (CheckRegistration (wallet b)) (sent w' - sent w)) /\
  forall n, startMiningLoop n b' w' = (b', w').
Proof.
  intros Hreq Hfail. cbv zeta.
  rewrite (initialize_failure cycles b w w1 r Hreq Hfail). cbn [fst snd].
  pose proof (retryRequest_bounds (CheckRegistration (wallet b)) "Registration check" 3 w)
    as (Hb & _ & Hwr & Hse & evs & Ht & Hreqs & _).
  rewrite Hreq in Hb, Hwr, Hse, Ht, Hreqs. cbn [snd] in *.
  split_and!; try assumption; try reflexivity; try lia.
  - exists evs. split; assumption.
  - intros [|n]; reflexivity.
Qed.

Lemma failed_registration_never_reports_witness :
  let w := Scenario.world [Respond 120 Scenario.not_registered; Respond 90 (Scenario.accepted 7)]
             ∅ ∅ in
  fst (initialize 4 Scenario.fresh_bot w) = Scenario.fresh_bot /\
  sent (snd (initialize 4 Scenario.fresh_bot w)) = 1%nat.
Proof.
  intros w.
  pose proof (failed_registration_never_reports 4 Scenario.fresh_bot w
                (snd (retryRequest (api_call (CheckRegistration (wallet Scenario.fresh_bot)))
                        "Registration check" 3 w))
                (JS.Normal (Some Scenario.not_registered))
                ltac:(vm_compute; reflexivity) eq_refl) as (H1 & _).
  split; [rewrite H1; reflexivity | vm_compute; reflexivity].
Defined.

(** X17.  While the agent is active the report loop performs one balance
    update per cycle: after [n] cycles the agent is still active, between
    [n] and [3 n] requests were sent, every one of them a report for the
    agent's own wallet, and the loop waited [UPDATE_INTERVAL] exactly [n]
    times. *)
Theorem report_loop_runs_every_cycle :
  forall (n : nat) (b : Bot) (w : World),
    isActive (miningState b) = true ->
    let b' := fst (startMiningLoop n b w) in
    let w' := snd (startMiningLoop n b w) in
    isActive (miningState b') = true /\
    (sent w + n <= sent w' <= sent w + 3 * n)%nat /\
    exists evs,
      trace w' = trace w ++ evs /\
      count_sleeps MINING_CONFIG.UPDATE_INTERVAL evs = n /\
      length (requests_of evs) = (sent w' - sent w)%nat /\
      Forall (fun q => exists s, q = UpdateBalance (wallet b) s) (requests_of evs).
Proof.
  induction n as [|n IH]; intros b w Hact; cbn [startMiningLoop].
  - cbn [fst snd]. split_and!; try assumption; try lia.
    exists []. rewrite app_nil_r, Nat.sub_diag. split_and!; try reflexivity. constructor.
  - rewrite Hact.
    pose proof (updateBalance_keeps false b w) as (Hid & _ & Ha & _).
    pose proof (updateBalance_budget false b w) as (Hb & evs1 & Ht1 & Hreqs1 & Hc1).
    destruct (updateBalance false b w) as [b1 w1]. cbn [fst snd] in *.
    rewrite Hact in Ha.
    specialize (IH b1 (sleep MINING_CONFIG.UPDATE_INTERVAL w1) Ha).
    destruct IH as (Ha' & Hb' & evs2 & Ht2 & Hc2 & Hlen2 & Hall2).
    change (sent (sleep MINING_CONFIG.UPDATE_INTERVAL w1)) with (sent w1) in *.
    change (trace (sleep MINING_CONFIG.UPDATE_INTERVAL w1))
      with (trace w1 ++ [EvSleep MINING_CONFIG.UPDATE_INTERVAL]) in Ht2.
    rewrite (same_identity_wallet _ _ Hid) in Hall2.
    split_and!; try assumption; try lia.
    exists (evs1 ++ [EvSleep MINING_CONFIG.UPDATE_INTERVAL] ++ evs2).
    split_and!.
    + rewrite Ht2, Ht1, <- !app_assoc. reflexivity.
    + rewrite !count_sleeps_app, Hc1, Hc2. reflexivity.
    + rewrite !requests_of_app, !length_app, Hreqs1, repeat_length, Hlen2. simpl. lia.
    + rewrite !requests_of_app, Hreqs1. apply Forall_app. split.
      * apply Forall_forall. intros q Hq. apply list_elem_of_In, repeat_spec in Hq. subst q.
        eexists. reflexivity.
      * exact Hall2.
Qed.

Lemma report_loop_runs_every_cycle_witness :
  let b := fst (initialize 0 Scenario.fresh_bot Scenario.shrinking_world) in
  let w := snd (initialize 0 Scenario.fresh_bot Scenario.shrinking_world) in
  isActive (miningState (fst (startMiningLoop 2 b w))) = true /\
  (sent w + 2 <= sent (snd (startMiningLoop 2 b w)) <= sent w + 3 * 2)%nat.
Proof.
  intros b w.
  destruct (report_loop_runs_every_cycle 2 b w ltac:(vm_compute; reflexivity))
    as (H1 & H2 & _).
  split; assumption.
Defined.

(** ** Earnings arithmetic *)

(** X18.  Session earnings are additive over consecutive reports: the
    amount computed for the time up to a first instant plus the amount
    computed next for the time up to a second instant equals the amount
    that would have been computed directly for the second instant. *)
Theorem session_earnings_are_additive (b : Bot) (w1 w2 : World) :
  let d1 := fst (calculateSessionEarnings b w1) in
  let b1 := snd (calculateSessionEarnings b w1) in
  let d2 := fst (calculateSessionEarnings b1 w2) in
  (fst (calculateSessionEarnings b w2) == d1 + d2)%Q.
Proof.
  unfold calculateSessionEarnings. simpl.
  destruct (lastUpdate (miningState b)); unfold Qdiv; ring.
Qed.



(** X20.  An agent that never became active has neither [lastUpdate] nor
    [startTime]; when it is stopped, the final report it submits is
    computed from instant 0: the earnings of the whole time since the
    epoch. *)
Theorem never_activated_agent_reports_since_epoch (b : Bot) (w : World) :
  lastUpdate (miningState b) = None ->
  startTime (miningState b) = None ->
  exists evs,
    trace (snd (stop b w))
    = trace w ++ EvConsole (Stopping (botIndex b))
        :: EvRequest
             (UpdateBalance (wallet b)
                ((hashrate (stats b) * ((inject_Z (clock w) - 0) / 1000)
                  * MINING_CONFIG.EARNINGS_RATE) * (1 + referralBonus b))%Q)
        :: evs.
Proof.
  intros Hlu Hst.
  destruct (stop_trace b w) as (s & evs & Ht).
  destruct (updateBalance_first_request true (set_isActive false b)
              (console_log (Stopping (botIndex b)) w)) as [evs' He].
  unfold stop in *.
  destruct (updateBalance true (set_isActive false b)
              (console_log (Stopping (botIndex b)) w)) as [b1 w1].
  cbn [fst snd] in *.
  assert (Hreq : update_request (set_isActive false b) (console_log (Stopping (botIndex b)) w)
                 = UpdateBalance (wallet b)
                     ((hashrate (stats b) * ((inject_Z (clock w) - 0) / 1000)
                       * MINING_CONFIG.EARNINGS_RATE) * (1 + referralBonus b))%Q).
  { unfold update_request, calculateSessionEarnings. simpl. rewrite Hlu, Hst. reflexivity. }
  rewrite Hreq in He.
  exists (evs' ++ [EvWrite (sessionFile b1) (session_record b1) (disk w1 (written w1));
                   EvConsole (Stopped (botIndex b))]).
  pose proof (saveSession_effect b1 w1) as (Hts & _).
  destruct (currentEarnings b1); cbn [fst snd]; unfold console_log at 1, emit at 1;
    cbn [trace]; rewrite Hts, He; unfold console_log, emit; cbn [trace];
    rewrite <- !app_assoc; reflexivity.
Qed.

Lemma never_activated_agent_reports_since_epoch_witness :
  exists evs,
    trace (snd (stop (KaleidoMiningBot.constructor Scenario.address1 1 None
                        Scenario.unregistered_world)
                  (snd Scenario.unregistered_started)))
    = trace (snd Scenario.unregistered_started)
      ++ EvConsole (Stopping 1)
         :: EvRequest (UpdateBalance "0x7e5f4552091a69125d5dfcb7b8c2659029395bdf"
                         (256700000018120 # 20000000))
         :: evs.
Proof.
  destruct (never_activated_agent_reports_since_epoch
              (KaleidoMiningBot.constructor Scenario.address1 1 None
                 Scenario.unregistered_world)
              (snd Scenario.unregistered_started) eq_refl eq_refl) as [evs Ht].
  exists evs. vm_compute in Ht |- *. exact Ht.
Defined.

(** ** Loading credentials *)

(** X21.  With at least as many proxies as keys the pairing is one to one:
    the entry at index [i] carries the proxy at index [i], so distinct
    proxies in the file give every agent a proxy of its own. *)
Theorem proxies_are_one_to_one_when_enough (keys proxies : list string) :
  (0 < length keys <= length proxies)%nat ->
  cred_proxy <$> MiningCoordinator.assign_proxies keys proxies
  = Some <$> take (length keys) proxies /\
  (NoDup proxies -> NoDup (cred_proxy <$> MiningCoordinator.assign_proxies keys proxies)).
Proof.
  intros [Hpos Hle].
  assert (Heq : cred_proxy <$> MiningCoordinator.assign_proxies keys proxies
                = Some <$> take (length keys) proxies).
  { apply list_eq. intros i. unfold MiningCoordinator.assign_proxies.
    rewrite !list_lookup_fmap, list_lookup_imap.
    destruct (keys !! i) as [pk|] eqn:Hi; simpl.
    - apply lookup_lt_Some in Hi.
      destruct (Nat.ltb_spec 0 (length proxies)) as [_|Hge]; [|lia].
      rewrite Nat.mod_small by lia. rewrite lookup_take_lt by lia.
      destruct (lookup_lt_is_Some_2 proxies i ltac:(lia)) as [p Hp].
      rewrite Hp. reflexivity.
    - apply lookup_ge_None in Hi. rewrite lookup_take_ge by lia. reflexivity. }
  split; [exact Heq|].
  intros Hnd. rewrite Heq. apply (NoDup_fmap_2 Some).
  eapply sublist_NoDup; [exact Hnd | apply sublist_take].
Qed.

Lemma proxies_are_one_to_one_when_enough_witness :
  cred_proxy <$> MiningCoordinator.assign_proxies ["k0"; "k1"] ["p0"; "p1"; "p2"]
  = [Some "p0"; Some "p1"].
Proof.
  destruct (proxies_are_one_to_one_when_enough ["k0"; "k1"] ["p0"; "p1"; "p2"]
              ltac:(simpl; lia)) as [H _].
  exact H.
Defined.

(** X22.  Every key and every proxy that [loadPrivateKeysAndProxies] hands
    out is a line of its file with the surrounding white space removed: it
    is not empty, does not start with [#], and trimming it again changes
    nothing. *)
Theorem loaded_lines_are_clean (w : World) (entry : Credential) :
  entry ∈ fst (MiningCoordinator.loadPrivateKeysAndProxies w) ->
  let clean (line : string) :=
    line <> "" /\ JS.startsWith "#" line = false /\ JS.trim line = line in
  clean (privateKey entry) /\
  (forall p, cred_proxy entry = Some p -> clean p).
Proof.
  intros Hin clean.
  assert (Hparse : forall data line,
             In line (MiningCoordinator.parse_lines data) -> clean line).
  { intros data line Hl. unfold MiningCoordinator.parse_lines in Hl.
    apply List.filter_In in Hl as [Hl Hkeep].
    apply List.in_map_iff in Hl as (raw & <- & _).
    apply andb_prop in Hkeep as [Hne Hhash].
    unfold clean. split_and!.
    - intros Hempty. rewrite Hempty in Hne. discriminate.
    - destruct (JS.startsWith "#" (JS.trim raw)); [discriminate|reflexivity].
    - apply trim_idem. }
  unfold MiningCoordinator.loadPrivateKeysAndProxies in Hin.
  destruct (files w !! JS.path_join (root w) FILE_PATHS.PRIVATE_KEYS) as [pkData|];
    [|cbn [fst] in Hin; inversion Hin].
  set (proxies :=
         match files w !! JS.path_join (root w) FILE_PATHS.PROXIES with
         | Some data => if JS.truthy_string data then MiningCoordinator.parse_lines data else []
         | None => []
         end).
  assert (Hentries : entry ∈ MiningCoordinator.assign_proxies
                                (MiningCoordinator.parse_lines pkData) proxies).
  { subst proxies.
    destruct (files w !! JS.path_join (root w) FILE_PATHS.PROXIES); exact Hin. }
  assert (Hproxies : forall p, In p proxies -> clean p).
  { subst proxies. intros p Hp.
    destruct (files w !! JS.path_join (root w) FILE_PATHS.PROXIES) as [data|];
      [|contradiction].
    destruct (JS.truthy_string data); [eapply Hparse; exact Hp | contradiction]. }
  unfold MiningCoordinator.assign_proxies in Hentries.
  apply elem_of_lookup_imap in Hentries as (i & pk & -> & Hpk).
  cbn [privateKey cred_proxy]. split.
  - apply (Hparse pkData). apply list_elem_of_In. eapply list_elem_of_lookup_2, Hpk.
  - intros p Hp. apply Hproxies. apply list_elem_of_In.
    destruct (0 <? length proxies)%nat; [|discriminate].
    eapply list_elem_of_lookup_2, Hp.
Qed.

Lemma loaded_lines_are_clean_witness :
  JS.trim Scenario.key2 = Scenario.key2 /\ Scenario.key2 <> "".
Proof.
  destruct (loaded_lines_are_clean (Scenario.world [] Scenario.two_keys ∅)
              {| privateKey := Scenario.key2; cred_proxy := None |}) as ((H1 & _ & H3) & _).
  - vm_compute. set_solver.
  - split; assumption.
Defined.
